(** * pipf: a wrapper around pipenv

    Shallow embedding of [pipf.py] and the properties of its
    environment locator, working-directory resolver and dispatcher.

    The script talks to the operating system (process environment,
    file system, child processes, a pseudo-terminal).  The process
    environment [os.environ] is mutable state of the script; everything
    else the script only observes or triggers, so it is described by a
    read-only [World] of answers and recorded as a trace of events. *)

From Stdlib Require Import ZArith Ascii String List Bool Lia.
From stdpp Require Import base option strings list gmap.

Local Open Scope string_scope.
Local Open Scope list_scope.

(** ** Python values *)

(** Paths as [pathlib] builds them in the script: a base path made from
    a string, and children made with the [/] operator. *)
Inductive Path : Type :=
| PBase (s : string)
| PChild (parent : Path) (entry : string).

#[global] Instance Path_eq_dec : EqDecision Path.
Proof. solve_decision. Defined.

(** Whether a string ends with the path separator, as the roots ["/"]
    and ["//"] do. *)
Fixpoint ends_with_slash (s : string) : bool :=
  match s with
  | EmptyString => false
  | String c EmptyString => Ascii.eqb c "/"
  | String _ rest => ends_with_slash rest
  end.

(** [str(path)] for a base string that is already in normal form: a
    child of the current directory ["."] is the entry alone, and a
    child of a root takes no second separator. *)
Fixpoint path_str (p : Path) : string :=
  match p with
  | PBase s => s
  | PChild d e =>
      let base := path_str d in
      if String.eqb base "." then e
      else if ends_with_slash base then base +:+ e
      else base +:+ "/" +:+ e
  end.

(** The values the script handles: [None], [str], [int] and
    [pathlib.Path] objects. *)
Inductive pyval : Type :=
| PyNone
| PyStr (s : string)
| PyInt (z : Z)
| PyPath (p : Path).

(** Truth value of an object in a condition ([if x], [not x]). *)
Definition truthy (v : pyval) : bool :=
  match v with
  | PyNone => false
  | PyStr s => negb (String.eqb s "")
  | PyInt z => negb (Z.eqb z 0)
  | PyPath _ => true
  end.

(** The [==] operator: objects of different types are never equal. *)
Definition py_eq (a b : pyval) : bool :=
  match a, b with
  | PyNone, PyNone => true
  | PyStr x, PyStr y => String.eqb x y
  | PyInt x, PyInt y => Z.eqb x y
  | PyPath x, PyPath y => bool_decide (x = y)
  | _, _ => false
  end.

(** [args.name] is [None] when [--name] is absent. *)
Definition of_name (n : option string) : pyval :=
  match n with
  | None => PyNone
  | Some s => PyStr s
  end.

(** ** Exceptions and results *)

Inductive exn : Type :=
| SystemExit (code : pyval)
| IndexError
| TypeError
| NameError
| EnvironmentError (msg : string)
| OSError (what : string)
| ExceptionPexpect (what : string).

Inductive Result (A : Type) : Type :=
| Ret (a : A)
| Raise (e : exn).
Arguments Ret {A} a.
Arguments Raise {A} e.

(** Exit status of the interpreter for [SystemExit(code)]: the low
    eight bits of an integer that fits a C long (64 bits), and 255 for
    an integer beyond. *)
Definition sys_exit_status (code : pyval) : Z :=
  match code with
  | PyNone => 0
  | PyInt n =>
      if Z.leb (- 2 ^ 63) n && Z.ltb n (2 ^ 63) then Z.land n 255 else 255
  | PyStr _ | PyPath _ => 1
  end.

(** Exit status of the process: 0 when the script runs to its end, the
    status of [SystemExit], and 1 for any other uncaught exception. *)
Definition process_exit_status {A} (r : Result A) : Z :=
  match r with
  | Ret _ => 0
  | Raise (SystemExit c) => sys_exit_status c
  | Raise _ => 1
  end.

(** ** Events, world and state *)

Inductive event : Type :=
| EPrint (msg : string)
| EWarn (msg : string)
| EParseArgs (argv : list string)
| EGlob (root : Path) (pattern : string)
| EOpen (file : Path)
| EExists (file : Path)
| ETerminalSize
| ESpawn (command : pyval) (args : list string)
| ESendline (line : string)
| ESignal
| ESetwinsize (lines columns : nat)
| EInteract
| EClose
| ERun (cmd : list string) (cwd : option string).

(** The parsed command line: [args.name] and [args.command]. *)
Record Args : Type := mkArgs {
  name : option string;
  command : list string
}.

(** What the operating system and the libraries answer. *)
Record World : Type := mkWorld {
  (** [parser.parse_args()] on the command line *)
  w_parse_args : list string -> Result Args;
  (** [Path(root).expanduser()] *)
  w_expanduser : string -> Path;
  (** names of the entries of a directory, in scan order, files and
      directories alike; empty for a missing directory *)
  w_entries : Path -> list string;
  (** the entries that are directories *)
  w_is_dir : Path -> bool;
  (** [list(root.glob(pattern))] for the patterns that [glob] below
      does not work out itself *)
  w_glob_other : Path -> string -> Result (list Path);
  (** text of a file as [open] in text mode gives it, [None] when the
      file cannot be opened *)
  w_text : Path -> option string;
  (** [Path(".").absolute()] *)
  w_cwd : Path;
  (** [Path.exists()] *)
  w_exists : Path -> bool;
  (** failure of [pexpect.spawn], of [sendline], of [interact] and of
      [close], if any *)
  w_spawn : pyval -> list string -> option exn;
  w_sendline : string -> option exn;
  w_interact : option exn;
  w_close : option exn;
  (** terminal sizes [(lines, columns)] found at each resize signal
      delivered during [interact] *)
  w_resizes : list (nat * nat);
  (** [envshell.exitstatus] after [close] *)
  w_exitstatus : pyval;
  (** failure of [subprocess.run], if any *)
  w_run : list string -> option string -> option exn
}.

(** The mutable state: [os.environ], and the events so far, oldest
    first. *)
Record State : Type := mkState {
  environ : gmap string string;
  trace : list event
}.

(** ** The monad of the script: state and exceptions *)

Definition M (A : Type) : Type := State -> Result A * State.

Definition ret {A} (a : A) : M A := fun s => (Ret a, s).

Definition bind {A B} (m : M A) (f : A -> M B) : M B :=
  fun s =>
    match m s with
    | (Ret a, s') => f a s'
    | (Raise e, s') => (Raise e, s')
    end.

Definition raise {A} (e : exn) : M A := fun s => (Raise e, s).

Declare Scope py_scope.
Delimit Scope py_scope with py.
Notation "x <- m ;; k" := (bind m (fun x => k))
  (at level 100, m at next level, right associativity) : py_scope.
Notation "m ;; k" := (bind m (fun _ => k))
  (at level 100, right associativity) : py_scope.
Local Open Scope py_scope.

(** [try: body finally: cleanup] *)
Definition try_finally {A} (body : M A) (cleanup : M unit) : M A :=
  fun s =>
    let (r, s') := body s in
    match cleanup s' with
    | (Ret _, s'') => (r, s'')
    | (Raise e, s'') => (Raise e, s'')
    end.

Definition emit (e : event) : M unit :=
  fun s => (Ret tt, mkState (environ s) (trace s ++ [e])).

(** An external call that fails when the world says so. *)
Definition outcome (failure : option exn) : M unit :=
  match failure with
  | None => ret tt
  | Some e => raise e
  end.

(** *** [os.environ] *)

(** [os.environ.get(k)]: the string, or [None] when [k] is not set. *)
Definition env_value (env : gmap string string) (k : string) : pyval :=
  match env !! k with
  | Some v => PyStr v
  | None => PyNone
  end.

(** [os.getenv(k)] *)
Definition getenv (k : string) : M pyval :=
  fun s => (Ret (env_value (environ s) k), s).

(** [dict(os.environ)] *)
Definition environ_copy : M (gmap string string) :=
  fun s => (Ret (environ s), s).

(** [os.environ[k] = v] *)
Definition environ_set (k v : string) : M unit :=
  fun s => (Ret tt, mkState (<[k := v]> (environ s)) (trace s)).

(** [os.environ.pop(k, None)] *)
Definition environ_pop (k : string) : M unit :=
  fun s => (Ret tt, mkState (delete k (environ s)) (trace s)).

(** [os.environ.clear()] *)
Definition environ_clear : M unit :=
  fun s => (Ret tt, mkState ∅ (trace s)).

(** [os.environ.update(d)]: the entries of [d] win. *)
Definition environ_update (d : gmap string string) : M unit :=
  fun s => (Ret tt, mkState (d ∪ environ s) (trace s)).

(** *** Output and process control *)

Definition print (msg : string) : M unit := emit (EPrint msg).
Definition warn (msg : string) : M unit := emit (EWarn msg).

(** The builtin [exit()]: [SystemExit(None)]. *)
Definition exit {A} : M A := raise (SystemExit PyNone).

(** [sys.exit(code)] *)
Definition sys_exit {A} (code : pyval) : M A := raise (SystemExit code).

(** ** The file system *)

(** Shell-style patterns of one path component: [*] stands for any run
    of characters, [?] for one character, any other character for
    itself.  A character is an element of the string, so a name is
    taken to be made of one-byte characters. *)
Inductive glob_token : Type :=
| GStar
| GAny
| GChar (c : ascii).

Definition glob_token_of (c : ascii) : glob_token :=
  if Ascii.eqb c "*" then GStar
  else if Ascii.eqb c "?" then GAny
  else GChar c.

Fixpoint glob_match (pat : list glob_token) (s : list ascii) : bool :=
  match pat with
  | [] => match s with [] => true | _ :: _ => false end
  | GStar :: pat' =>
      (fix star (s : list ascii) : bool :=
         glob_match pat' s ||
         match s with [] => false | _ :: s' => star s' end) s
  | GAny :: pat' =>
      match s with [] => false | _ :: s' => glob_match pat' s' end
  | GChar c :: pat' =>
      match s with
      | [] => false
      | c' :: s' => Ascii.eqb c c' && glob_match pat' s'
      end
  end.

Definition fnmatch (pattern entry : string) : bool :=
  glob_match (List.map glob_token_of (list_ascii_of_string pattern))
             (list_ascii_of_string entry).

(** Two stars in a row: alone they search the whole tree, inside a
    component they are refused or read as one star, by the version of
    the library. *)
Fixpoint has_double_star (l : list ascii) : bool :=
  match l with
  | [] => false
  | c :: rest =>
      match rest with
      | [] => false
      | c' :: _ => (Ascii.eqb c "*" && Ascii.eqb c' "*") || has_double_star rest
      end
  end.

(** The patterns worked out here: one component, without character
    class and without two stars in a row. *)
Definition simple_pattern (pattern : string) : bool :=
  forallb (fun c => negb (Ascii.eqb c "[") && negb (Ascii.eqb c "/"))
          (list_ascii_of_string pattern)
  && negb (has_double_star (list_ascii_of_string pattern)).

(** [list(root.glob(pattern))]: for a simple pattern the entries of
    [root] that match, files and directories alike, as children of
    [root]; for another pattern what the world answers. *)
Definition glob (w : World) (root : Path) (pattern : string) : M (list Path) :=
  emit (EGlob root pattern) ;;
  if simple_pattern pattern
  then ret (List.map (PChild root) (List.filter (fnmatch pattern) (w_entries w root)))
  else match w_glob_other w root pattern with
       | Ret found => ret found
       | Raise e => raise e
       end.

(** [f.readline()] on a fresh file: the first line with its line
    terminator, or all the text when it has no newline. *)
Fixpoint readline (text : string) : string :=
  match text with
  | EmptyString => EmptyString
  | String c rest =>
      if Ascii.eqb c "010" then String c EmptyString
      else String c (readline rest)
  end.

(** [with open(path) as f: f.readline()] *)
Definition open_readline (w : World) (file : Path) : M string :=
  emit (EOpen file) ;;
  match w_text w file with
  | None => raise (OSError "open")
  | Some text => ret (readline text)
  end.

(** ** The script *)

Definition venv_in_project_msg : string :=
  "You have set the PIPENV_VENV_IN_PROJECT variable, so pipf can't find the environment locations. This is currently not supported".

Definition ambiguous_msg : string :=
  "More than one Env of the same name. Not currently supported.".

Definition pipfile_found_msg : string :=
  "Not in a venv and no name supplied. Found a Pipfile in current dir, using this environment".

Definition pipfile_missing_msg : string :=
  "Not in a venv and no name supplied. Found no Pipfile in current dir, cannot identify which venv to use".

(** Lines 16-20. *)
Definition check_venv_in_project : M unit :=
  flag <- getenv "PIPENV_VENV_IN_PROJECT" ;;
  if truthy flag then (print venv_in_project_msg ;; exit) else ret tt.

(** Lines 24-33: the context manager around a [with] body. *)
Definition temp_environ {A} (body : M A) : M A :=
  saved <- environ_copy ;;
  try_finally body (environ_clear ;; environ_update saved).

(** Lines 36-55. *)
Definition get_env_dir (w : World) (envname : pyval) : M pyval :=
  if negb (truthy envname) then getenv "VIRTUAL_ENV"
  else
    environments_root <- getenv "WORKON_HOME" ;;
    let environments_root :=
      if negb (truthy environments_root)
      then PyStr "~/.local/share/virtualenvs"
      else environments_root in
    match environments_root, envname with
    | PyStr root, PyStr n =>
        let root_path := w_expanduser w root in
        env_path <- glob w root_path (n +:+ "*") ;;
        (if (1 <? length env_path)%nat
         then (print ambiguous_msg ;; exit)
         else ret tt) ;;
        match env_path with
        | [] => raise IndexError
        | first :: _ => ret (PyPath first)
        end
    | _, _ => raise TypeError
    end.

(** Lines 58-67.  Only a [Path] has the [/] operator. *)
Definition get_working_dir (w : World) (envname : pyval) : M string :=
  env_path <- get_env_dir w envname ;;
  match env_path with
  | PyPath p => open_readline w (PChild p ".project")
  | _ => raise TypeError
  end.

(** Lines 70-74. *)
Definition is_pipenv_venv_active : M bool :=
  v <- getenv "PIPENV_ACTIVE" ;;
  ret (py_eq v (PyInt 1)).

(** Lines 77-83.  [chdir] is [os.chdir]; the default of [envname] is
    the empty string. *)
Definition cd_to_env_dir (chdir : string -> M unit) (w : World) (envname : pyval) : M unit :=
  active <- is_pipenv_venv_active ;;
  env_dir <- (if active
              then get_working_dir w (PyStr "")
              else get_working_dir w envname) ;;
  chdir env_dir.

(** Line 102. *)
Definition parse_args (w : World) (argv : list string) : M Args :=
  emit (EParseArgs argv) ;;
  match w_parse_args w argv with
  | Ret a => ret a
  | Raise e => raise e
  end.

(** Lines 105-116: the value of [in_correct_dir]. *)
Definition locate_pipfile (w : World) (args : Args) : M bool :=
  active <- is_pipenv_venv_active ;;
  if negb active && negb (truthy (of_name (name args))) then
    let cwd := w_cwd w in
    emit (EExists (PChild cwd "Pipfile")) ;;
    if w_exists w (PChild cwd "Pipfile")
    then (warn pipfile_found_msg ;; ret true)
    else raise (EnvironmentError pipfile_missing_msg)
  else ret false.

(** Lines 136-138: the handler of the resize signal. *)
Definition sigwinch_passthrough (dims : nat * nat) : M unit :=
  emit ETerminalSize ;;
  emit (ESetwinsize (fst dims) (snd dims)).

Fixpoint deliver (handler : nat * nat -> M unit) (signals : list (nat * nat)) : M unit :=
  match signals with
  | [] => ret tt
  | dims :: rest => handler dims ;; deliver handler rest
  end.

(** [envshell.interact(escape_character=None)] with the handler
    installed. *)
Definition interact (w : World) (handler : nat * nat -> M unit) : M unit :=
  emit EInteract ;;
  deliver handler (w_resizes w) ;;
  outcome (w_interact w).

(** Lines 130-144: the body of the [with] block. *)
Definition shell_session (w : World) (args : Args) : M unit :=
  shell <- getenv "SHELL" ;;
  emit (ESpawn shell ["-i"]) ;;
  outcome (w_spawn w shell ["-i"]) ;;
  env_dir <- get_env_dir w (of_name (name args)) ;;
  match env_dir with
  | PyPath p =>
      let line := "source " +:+ path_str p +:+ "/bin/activate" in
      emit (ESendline line) ;;
      outcome (w_sendline w line) ;;
      emit ESignal ;;
      interact w sigwinch_passthrough ;;
      emit EClose ;;
      outcome (w_close w) ;;
      sys_exit (w_exitstatus w)
  | _ => raise TypeError
  end.

(** Lines 121-144: the interactive-shell branch. *)
Definition shell_branch (w : World) (args : Args) : M unit :=
  environ_set "PIPENV_ACTIVE" "1" ;;
  environ_pop "PIP_SHIMS_BASE_MODULE" ;;
  emit ETerminalSize ;;
  temp_environ (shell_session w args).

(** Line 120: the condition of the interactive-shell branch. *)
Definition shell_condition (args : Args) : M bool :=
  match command args with
  | [] => raise IndexError
  | first :: _ =>
      ret (py_eq (PyStr first) (PyStr "shell") && truthy (of_name (name args)))
  end.

(** Lines 120-148: the value of [cmd] afterwards, [None] when the
    name is not bound. *)
Definition dispatch (w : World) (args : Args) : M (option (list string)) :=
  interactive <- shell_condition args ;;
  if interactive
  then (shell_branch w args ;; ret None)
  else ret (Some ("pipenv" :: command args)).

(** [subprocess.run(cmd, cwd=cwd)] *)
Definition subprocess_run (w : World) (cmd : list string) (cwd : option string) : M unit :=
  emit (ERun cmd cwd) ;;
  outcome (w_run w cmd cwd).

(** Lines 150-153. *)
Definition forward (w : World) (args : Args) (in_correct_dir : bool)
    (cmd : option (list string)) : M unit :=
  match cmd with
  | None => raise NameError
  | Some cmd =>
      if negb in_correct_dir then
        working_dir <- get_working_dir w (of_name (name args)) ;;
        subprocess_run w cmd (Some working_dir)
      else subprocess_run w cmd None
  end.

(** The whole script. *)
Definition pipf (w : World) (argv : list string) : M unit :=
  check_venv_in_project ;;
  args <- parse_args w argv ;;
  in_correct_dir <- locate_pipfile w args ;;
  cmd <- dispatch w args ;;
  forward w args in_correct_dir cmd.

(** ** Vocabulary of the statements *)

(** [entry.startswith(prefix)] *)
Fixpoint starts_with (prefix entry : string) : bool :=
  match prefix, entry with
  | EmptyString, _ => true
  | String _ _, EmptyString => false
  | String a prefix', String b entry' => Ascii.eqb a b && starts_with prefix' entry'
  end.

(** Names without pattern characters and without path separator. *)
Definition plain_char (c : ascii) : bool :=
  negb (Ascii.eqb c "*") && negb (Ascii.eqb c "?") &&
  negb (Ascii.eqb c "[") && negb (Ascii.eqb c "/").

Definition plain_name (n : string) : bool :=
  forallb plain_char (list_ascii_of_string n).

(** The storage root the locator searches: [WORKON_HOME], or the
    default when it is unset or empty, with the home directory
    expanded. *)
Definition storage_root (w : World) (env : gmap string string) : Path :=
  w_expanduser w
    match env !! "WORKON_HOME" with
    | Some root => if String.eqb root "" then "~/.local/share/virtualenvs" else root
    | None => "~/.local/share/virtualenvs"
    end.

(** Entries of the storage root whose names start with [n], and those
    of them that are directories. *)
Definition entries_named (w : World) (root : Path) (n : string) : list string :=
  List.filter (starts_with n) (w_entries w root).

Definition dirs_named (w : World) (root : Path) (n : string) : list string :=
  List.filter (fun e => starts_with n e && w_is_dir w (PChild root e))
              (w_entries w root).

(** A state with more events. *)
Definition log (s : State) (events : list event) : State :=
  mkState (environ s) (trace s ++ events).

(** A string without newline character. *)
Definition one_line (text : string) : bool :=
  forallb (fun c => negb (Ascii.eqb c "010")) (list_ascii_of_string text).

(** The line terminator. *)
Definition newline : string := String "010" EmptyString.

(** A variable that is set to a non-empty string. *)
Definition env_truthy (env : gmap string string) (k : string) : bool :=
  match env !! k with
  | Some v => negb (String.eqb v "")
  | None => false
  end.

(** One step of a sequence whose first command is known. *)
Ltac step H := unfold bind at 1; rewrite H; cbv beta iota.

(** The dispatcher enters the interactive-shell branch, or builds the
    command to forward. *)
Definition takes_shell_branch (w : World) (args : Args) (s : State) : Prop :=
  dispatch w args s = (shell_branch w args ;; ret None) s.

Definition takes_forward_branch (w : World) (args : Args) (s : State) : Prop :=
  dispatch w args s = (Ret (Some ("pipenv" :: command args)), s).

(** Result of [subprocess.run]. *)
Definition run_result (w : World) (cmd : list string) (cwd : option string) : Result unit :=
  match w_run w cmd cwd with
  | None => Ret tt
  | Some e => Raise e
  end.

(** What the resize signals delivered during the relay leave in the
    trace. *)
Definition resize_events (w : World) : list event :=
  flat_map (fun dims => [ETerminalSize; ESetwinsize (fst dims) (snd dims)])
           (w_resizes w).

(** The environment the subshell is started in. *)
Definition shell_environ (env : gmap string string) : gmap string string :=
  delete "PIP_SHIMS_BASE_MODULE" (<["PIPENV_ACTIVE" := "1"]> env).

(** Lines 48-53 of the locator: the search for [n] below [root]. *)
Definition search_root (w : World) (root : Path) (n : string) : M pyval :=
  env_path <- glob w root (n +:+ "*") ;;
  (if (1 <? length env_path)%nat then (print ambiguous_msg ;; exit) else ret tt) ;;
  match env_path with
  | [] => raise IndexError
  | first :: _ => ret (PyPath first)
  end.

(** A command that leaves [os.environ] as it found it. *)
Definition keeps_environ {A} (m : M A) : Prop :=
  forall s, environ (snd (m s)) = environ s.

(** The child processes among some events: subshells spawned and
    commands run. *)
Definition is_child (e : event) : bool :=
  match e with
  | ESpawn _ _ | ERun _ _ => true
  | _ => false
  end.

Definition child_events (events : list event) : nat :=
  length (List.filter is_child events).

(** A command that only adds events, with at most [n] child processes
    among them. *)
Definition starts_at_most {A} (n : nat) (m : M A) : Prop :=
  forall s, exists events,
    trace (snd (m s)) = trace s ++ events /\ (child_events events <= n)%nat.

(** Whether a run enters the interactive-shell branch: the
    venv-in-project variable is unset or empty, the command line
    parses, its first token is ["shell"] and the name is not empty. *)
Definition enters_shell (w : World) (argv : list string) (env : gmap string string) : bool :=
  negb (env_truthy env "PIPENV_VENV_IN_PROJECT") &&
  match w_parse_args w argv with
  | Ret args =>
      match command args with
      | first :: _ => String.eqb first "shell" && truthy (of_name (name args))
      | [] => false
      end
  | Raise _ => false
  end.

(** ** Example worlds *)

Definition example_root : Path := PBase "/home/u/.local/share/virtualenvs".

Definition example_cwd : Path := PBase "/home/u/work".

(** The parser on the simplest command lines: [-n NAME] first, then
    the command. *)
Definition example_parse_args (argv : list string) : Result Args :=
  match argv with
  | [] => Raise (SystemExit (PyInt 2))
  | first :: rest =>
      if String.eqb first "-n" then
        match rest with
        | n :: c :: cs => Ret (mkArgs (Some n) (c :: cs))
        | _ => Raise (SystemExit (PyInt 2))
        end
      else Ret (mkArgs None (first :: rest))
  end.

(** A machine whose storage root holds the given entries (a name, and
    whether it is a directory), where every environment directory has
    the same marker file, where the current directory may hold a
    Pipfile, and where no child process fails. *)
Definition example_world (entries : list (string * bool)) (marker : string)
    (pipfile : bool) : World :=
  {| w_parse_args := example_parse_args;
     w_expanduser := fun root =>
       if String.eqb root "~/.local/share/virtualenvs" then example_root
       else PBase root;
     w_entries := fun d =>
       if bool_decide (d = example_root) then List.map fst entries else [];
     w_is_dir := fun p =>
       existsb (fun e => bool_decide (p = PChild example_root (fst e)) && snd e)
               entries;
     w_glob_other := fun _ _ => Ret [];
     w_text := fun f =>
       if existsb (fun e => bool_decide (f = PChild (PChild example_root (fst e)) ".project")
                            && snd e) entries
       then Some marker else None;
     w_cwd := example_cwd;
     w_exists := fun f => bool_decide (f = PChild example_cwd "Pipfile") && pipfile;
     w_spawn := fun _ _ => None;
     w_sendline := fun _ => None;
     w_interact := None;
     w_close := None;
     w_resizes := [(24, 80)%nat];
     w_exitstatus := PyInt 3;
     w_run := fun _ _ => None |}.

Definition example_state (vars : list (string * string)) : State :=
  mkState (list_to_map vars) [].

(** ** Lemmas on the model *)

Lemma log_nil (s : State) : log s [] = s.
Proof. destruct s as [env tr]. unfold log. simpl. by rewrite app_nil_r. Qed.

Lemma log_log (s : State) (l1 l2 : list event) : log (log s l1) l2 = log s (l1 ++ l2).
Proof. unfold log. simpl. by rewrite <- app_assoc. Qed.

Lemma emit_log (e : event) (s : State) : emit e s = (Ret tt, log s [e]).
Proof. reflexivity. Qed.

Lemma chars_append (a b : string) :
  list_ascii_of_string (a +:+ b) = list_ascii_of_string a ++ list_ascii_of_string b.
Proof. induction a as [|c a IH]; simpl; [done | by rewrite IH]. Qed.

Lemma glob_star_any (s : list ascii) : glob_match [GStar] s = true.
Proof. induction s as [|c s IH]; simpl in *; [done |]. exact IH. Qed.

Lemma plain_char_token (c : ascii) : plain_char c = true -> glob_token_of c = GChar c.
Proof.
  unfold plain_char, glob_token_of. intros H.
  destruct (Ascii.eqb c "*"); [done |].
  destruct (Ascii.eqb c "?"); [done |]. done.
Qed.

(** On a plain name, the pattern [name*] selects the entries that
    start with the name. *)
Lemma fnmatch_plain_prefix (n entry : string) :
  plain_name n = true ->
  fnmatch (n +:+ "*") entry = starts_with n entry.
Proof.
  unfold fnmatch, plain_name. rewrite chars_append, map_app. simpl.
  revert entry. induction n as [|c n IH]; intros entry Hplain.
  - simpl. rewrite glob_star_any. by destruct entry.
  - simpl in Hplain. apply andb_prop in Hplain as [Hc Hn].
    cbn [list_ascii_of_string List.map app]. rewrite (plain_char_token c Hc).
    destruct entry as [|c' entry']; [done |].
    cbn [list_ascii_of_string glob_match starts_with].
    by rewrite (IH entry' Hn).
Qed.

Lemma plain_name_simple (n : string) :
  plain_name n = true -> simple_pattern (n +:+ "*") = true.
Proof.
  unfold plain_name, simple_pattern. intros Hplain. apply andb_true_intro. split.
  - rewrite chars_append, forallb_app. apply andb_true_intro. split; [| reflexivity].
    induction n as [|c n IH]; [reflexivity |].
    simpl in *. apply andb_prop in Hplain as [Hc Hn]. rewrite (IH Hn), andb_true_r.
    unfold plain_char in Hc.
    destruct (Ascii.eqb c "["), (Ascii.eqb c "/");
      rewrite ?andb_false_r in Hc; done.
  - rewrite chars_append. apply negb_true_iff.
    induction n as [|c n IH]; [reflexivity |].
    simpl in Hplain. apply andb_prop in Hplain as [Hc Hn].
    specialize (IH Hn). cbn [list_ascii_of_string app] in *.
    set (l := list_ascii_of_string n ++ _) in *.
    destruct l as [|c' l']; [reflexivity |].
    change (has_double_star (c :: c' :: l'))
      with ((Ascii.eqb c "*" && Ascii.eqb c' "*") || has_double_star (c' :: l')).
    rewrite IH, orb_false_r. unfold plain_char in Hc.
    by destruct (Ascii.eqb c "*").
Qed.

Lemma glob_plain (w : World) (root : Path) (n : string) (s : State) :
  plain_name n = true ->
  glob w root (n +:+ "*") s =
  (Ret (List.map (PChild root) (entries_named w root n)), log s [EGlob root (n +:+ "*")]).
Proof.
  intros Hplain. unfold glob, bind, entries_named.
  rewrite emit_log, (plain_name_simple n Hplain). unfold ret.
  do 3 f_equal. apply filter_ext. intros e. by apply fnmatch_plain_prefix.
Qed.

Lemma dirs_named_le (w : World) (root : Path) (n : string) :
  (length (dirs_named w root n) <= length (entries_named w root n))%nat.
Proof.
  unfold dirs_named, entries_named.
  induction (w_entries w root) as [|e l IH]; simpl; [lia |].
  destruct (starts_with n e); simpl; [| exact IH].
  destruct (w_is_dir w (PChild root e)); simpl; lia.
Qed.

Lemma readline_line (line rest : string) :
  one_line line = true ->
  readline (line +:+ String "010" rest) = line +:+ String "010" EmptyString.
Proof.
  unfold one_line. induction line as [|c line IH]; simpl; intros H; [done |].
  apply andb_prop in H as [Hc Hl].
  destruct (Ascii.eqb c "010"); [done |]. by rewrite IH.
Qed.

Lemma readline_one_line (text : string) : one_line text = true -> readline text = text.
Proof.
  unfold one_line. induction text as [|c text IH]; simpl; intros H; [done |].
  apply andb_prop in H as [Hc Hl].
  destruct (Ascii.eqb c "010"); [done |]. by rewrite IH.
Qed.

(** The context manager puts [os.environ] back, whatever the body does
    and however it ends. *)
Lemma temp_environ_restores {A} (body : M A) (s : State) :
  environ (snd (temp_environ body s)) = environ s.
Proof.
  unfold temp_environ, bind, environ_copy, try_finally.
  destruct (body s) as [r s']. simpl.
  destruct r; simpl; apply (right_id_L ∅ (∪)).
Qed.

(** It passes the result of the body on and adds no event. *)
Lemma temp_environ_result {A} (body : M A) (s : State) :
  fst (temp_environ body s) = fst (body s) /\
  trace (snd (temp_environ body s)) = trace (snd (body s)).
Proof.
  unfold temp_environ, bind, environ_copy, try_finally.
  destruct (body s) as [r s']. by destruct r.
Qed.

(** ** The active-environment test *)

(** What [os.getenv] gives is a string or [None], never equal to an
    integer. *)
Lemma env_value_not_int (env : gmap string string) (k : string) (z : Z) :
  py_eq (env_value env k) (PyInt z) = false.
Proof. unfold env_value. by destruct (env !! k). Qed.

Lemma is_pipenv_venv_active_run (s : State) :
  is_pipenv_venv_active s = (Ret false, s).
Proof.
  unfold is_pipenv_venv_active, bind, getenv, ret.
  by rewrite env_value_not_int.
Qed.

(** C10: [is_pipenv_venv_active] answers [False] in every process
    environment, also when [PIPENV_ACTIVE] is the string ["1"]: it
    compares what [os.getenv] gives, a string or [None], with the
    integer 1.  So the script never finds an environment active: the
    value of [in_correct_dir] does not depend on [PIPENV_ACTIVE]. *)
Theorem is_pipenv_venv_active_false (w : World) (args : Args) (s : State) (v : option string) :
  is_pipenv_venv_active s = (Ret false, s) /\
  fst (is_pipenv_venv_active
         (mkState (<["PIPENV_ACTIVE" := "1"]> (environ s)) (trace s))) = Ret false /\
  fst (locate_pipfile w args
         (mkState (partial_alter (fun _ => v) "PIPENV_ACTIVE" (environ s)) (trace s))) =
  fst (locate_pipfile w args s).
Proof.
  split; [apply is_pipenv_venv_active_run |].
  split; [by rewrite is_pipenv_venv_active_run |].
  unfold locate_pipfile, bind. rewrite !is_pipenv_venv_active_run.
  destruct (negb false && negb (truthy (of_name (name args)))); [| reflexivity].
  rewrite !emit_log.
  by destruct (w_exists w (PChild (w_cwd w) "Pipfile")).
Qed.

(** ** The environment around the interactive-shell branch *)

Lemma bind_raises {A B} (m : M A) (f : A -> M B) (s : State) :
  (forall a s', exists e, fst (f a s') = Raise e) ->
  exists e, fst (bind m f s) = Raise e.
Proof.
  intros Hf. unfold bind. destruct (m s) as [[a | e] s']; [apply Hf | by exists e].
Qed.

Lemma shell_session_raises (w : World) (args : Args) (s : State) :
  exists e, fst (shell_session w args s) = Raise e.
Proof.
  unfold shell_session.
  do 4 (apply bind_raises; intros ? ?).
  destruct a2; try (by eexists).
  do 6 (apply bind_raises; intros ? ?).
  by eexists.
Qed.

(** The branch never falls through to the code after it. *)
Lemma shell_branch_raises (w : World) (args : Args) (s : State) :
  exists e, fst (shell_branch w args s) = Raise e.
Proof.
  unfold shell_branch.
  apply bind_raises; intros _ s1.
  apply bind_raises; intros _ s2.
  apply bind_raises; intros _ s3.
  destruct (temp_environ_result (shell_session w args) s3) as [-> _].
  apply shell_session_raises.
Qed.

(** The branch entered with ["PIPENV_ACTIVE"] unset and the legacy
    variable set leaves the first set and the second removed. *)
Lemma shell_branch_leaks :
  let w := example_world [("proj-Ab3dE", true)] "/home/u/proj" false in
  let s := example_state [("SHELL", "/bin/sh"); ("PIP_SHIMS_BASE_MODULE", "pipenv.patched.notpip")] in
  let s' := snd (shell_branch w (mkArgs (Some "proj") ["shell"]) s) in
  environ s !! "PIPENV_ACTIVE" = None /\
  environ s' !! "PIPENV_ACTIVE" = Some "1" /\
  environ s !! "PIP_SHIMS_BASE_MODULE" = Some "pipenv.patched.notpip" /\
  environ s' !! "PIP_SHIMS_BASE_MODULE" = None /\
  environ s' <> environ s.
Proof.
  vm_compute. repeat split; try reflexivity. discriminate.
Qed.

(** C1, as the script does it: however the interactive-shell branch
    ends, and it always ends with an exception, the process
    environment afterwards is the one the [with temp_environ()] block
    was entered with, that is the environment before the branch with
    [PIPENV_ACTIVE] set to ["1"] and [PIP_SHIMS_BASE_MODULE] removed. *)
Theorem shell_branch_environ (w : World) (args : Args) (s : State) :
  environ (snd (shell_branch w args s)) =
    delete "PIP_SHIMS_BASE_MODULE" (<["PIPENV_ACTIVE" := "1"]> (environ s)) /\
  exists e, fst (shell_branch w args s) = Raise e.
Proof.
  split; [| apply shell_branch_raises].
  unfold shell_branch, bind at 1 2 3, environ_set, environ_pop, emit.
  by rewrite temp_environ_restores.
Qed.

(** ** The environment locator *)

Lemma truthy_name (n : string) : n <> "" -> truthy (PyStr n) = true.
Proof.
  intros Hn. simpl. destruct (String.eqb_spec n ""); [done | reflexivity].
Qed.

(** What the locator does with a plain, non-empty name: it looks at
    the entries of the storage root that start with the name. *)
Lemma get_env_dir_named (w : World) (n : string) (s : State) :
  n <> "" ->
  plain_name n = true ->
  get_env_dir w (PyStr n) s =
    let root := storage_root w (environ s) in
    match entries_named w root n with
    | [] => (Raise IndexError, log s [EGlob root (n +:+ "*")])
    | [e] => (Ret (PyPath (PChild root e)), log s [EGlob root (n +:+ "*")])
    | _ :: _ :: _ =>
        (Raise (SystemExit PyNone),
         log s [EGlob root (n +:+ "*"); EPrint ambiguous_msg])
    end.
Proof.
  intros Hn Hplain. unfold get_env_dir. rewrite (truthy_name n Hn).
  cbn [negb]. cbv iota. unfold bind at 1. unfold getenv at 1. unfold env_value.
  unfold storage_root.
  assert (Hroot : forall root,
    (env_path <- glob w (w_expanduser w root) (n +:+ "*") ;;
     (if (1 <? length env_path)%nat then (print ambiguous_msg ;; exit) else ret tt) ;;
     match env_path with
     | [] => raise IndexError
     | first :: _ => ret (PyPath first)
     end) s =
    match entries_named w (w_expanduser w root) n with
    | [] => (Raise IndexError, log s [EGlob (w_expanduser w root) (n +:+ "*")])
    | [e] => (Ret (PyPath (PChild (w_expanduser w root) e)),
              log s [EGlob (w_expanduser w root) (n +:+ "*")])
    | _ :: _ :: _ =>
        (Raise (SystemExit PyNone),
         log s [EGlob (w_expanduser w root) (n +:+ "*"); EPrint ambiguous_msg])
    end).
  { intros root. unfold bind at 1. rewrite (glob_plain w _ n s Hplain).
    destruct (entries_named w (w_expanduser w root) n) as [|e [|e' l]]; try reflexivity.
    simpl. unfold bind, print, exit, raise. rewrite emit_log, log_log. reflexivity. }
  destruct (environ s !! "WORKON_HOME") as [root|]; simpl.
  - destruct (String.eqb root ""); simpl; apply Hroot.
  - apply Hroot.
Qed.

(** ** The working-directory resolver *)

(** C2 on an input where it fails: the marker file holds
    ["/home/u/proj"] and a newline.  The resolver returns the line
    with the newline still at its end, which is not the path of the
    working directory, and the forward branch hands that string to
    [subprocess.run] as the working directory of the child. *)
Lemma get_working_dir_keeps_newline :
  let w := example_world [("proj-Ab3dE", true)] ("/home/u/proj" +:+ newline) false in
  let s := example_state [] in
  w_text w (PChild (PChild example_root "proj-Ab3dE") ".project")
    = Some ("/home/u/proj" +:+ newline) /\
  fst (get_working_dir w (PyStr "proj") s) = Ret ("/home/u/proj" +:+ newline) /\
  fst (get_working_dir w (PyStr "proj") s) <> Ret "/home/u/proj" /\
  trace (snd (pipf w ["-n"; "proj"; "install"; "requests"] s)) =
    [EParseArgs ["-n"; "proj"; "install"; "requests"];
     EGlob example_root "proj*";
     EOpen (PChild (PChild example_root "proj-Ab3dE") ".project");
     ERun ["pipenv"; "install"; "requests"] (Some ("/home/u/proj" +:+ newline))].
Proof. vm_compute. repeat split; discriminate. Qed.

(** What the resolver does in general with a first line that ends in
    a newline: it returns the line as [readline] gives it, newline
    included. *)
Theorem get_working_dir_first_line (w : World) (envname : pyval) (s s' : State)
    (p : Path) (line rest : string) :
  get_env_dir w envname s = (Ret (PyPath p), s') ->
  w_text w (PChild p ".project") = Some (line +:+ newline +:+ rest) ->
  one_line line = true ->
  get_working_dir w envname s =
    (Ret (line +:+ newline), log s' [EOpen (PChild p ".project")]).
Proof.
  intros Hdir Htext Hline.
  unfold get_working_dir, bind at 1. rewrite Hdir.
  unfold open_readline, bind. rewrite emit_log, Htext.
  unfold ret. f_equal. f_equal. exact (readline_line line rest Hline).
Qed.

Lemma get_working_dir_first_line_witness :
  let w := example_world [("proj-Ab3dE", true)] ("/home/u/proj" +:+ newline) false in
  let s := example_state [] in
  get_working_dir w (PyStr "proj") s =
    (Ret ("/home/u/proj" +:+ newline),
     log (log s [EGlob example_root "proj*"])
         [EOpen (PChild (PChild example_root "proj-Ab3dE") ".project")]).
Proof.
  apply (get_working_dir_first_line
           (example_world [("proj-Ab3dE", true)] ("/home/u/proj" +:+ newline) false)
           (PyStr "proj") (example_state [])
           (log (example_state []) [EGlob example_root "proj*"])
           (PChild example_root "proj-Ab3dE") "/home/u/proj" "").
  - reflexivity.
  - reflexivity.
  - reflexivity.
Defined.

(** ** The start of the script *)

Lemma check_venv_in_project_pass (s : State) :
  env_truthy (environ s) "PIPENV_VENV_IN_PROJECT" = false ->
  check_venv_in_project s = (Ret tt, s).
Proof.
  unfold env_truthy, check_venv_in_project, bind, getenv, env_value. intros H.
  destruct (environ s !! "PIPENV_VENV_IN_PROJECT") as [v|]; simpl; [| done].
  by rewrite H.
Qed.

Lemma check_venv_in_project_abort (s : State) :
  env_truthy (environ s) "PIPENV_VENV_IN_PROJECT" = true ->
  check_venv_in_project s =
    (Raise (SystemExit PyNone), log s [EPrint venv_in_project_msg]).
Proof.
  unfold env_truthy, check_venv_in_project, bind, getenv, env_value. intros H.
  destruct (environ s !! "PIPENV_VENV_IN_PROJECT") as [v|]; simpl; [| done].
  by rewrite H.
Qed.

(** With the variable set to the empty string the script goes on: it
    parses the command line, resolves the environment and forwards
    the command. *)
Lemma venv_in_project_empty :
  let w := example_world [("proj-Ab3dE", true)] "/home/u/proj" false in
  let s := example_state [("PIPENV_VENV_IN_PROJECT", "")] in
  environ s !! "PIPENV_VENV_IN_PROJECT" = Some "" /\
  pipf w ["-n"; "proj"; "install"; "requests"] s =
    (Ret tt,
     log s [EParseArgs ["-n"; "proj"; "install"; "requests"];
            EGlob example_root "proj*";
            EOpen (PChild (PChild example_root "proj-Ab3dE") ".project");
            ERun ["pipenv"; "install"; "requests"] (Some "/home/u/proj")]).
Proof. vm_compute. split; reflexivity. Qed.

(** C9, as the script does it: when [PIPENV_VENV_IN_PROJECT] is set
    to a non-empty string, the script prints its message and leaves
    through [exit()] at once, whatever the command line: the command
    line is not parsed, no directory is searched, no file is read. *)
Theorem venv_in_project_aborts (w : World) (argv : list string) (s : State) (v : string) :
  environ s !! "PIPENV_VENV_IN_PROJECT" = Some v ->
  v <> "" ->
  pipf w argv s = (Raise (SystemExit PyNone), log s [EPrint venv_in_project_msg]).
Proof.
  intros Hset Hv. unfold pipf.
  step (check_venv_in_project_abort s); [reflexivity |].
  unfold env_truthy. rewrite Hset.
  destruct (String.eqb_spec v ""); [done | reflexivity].
Qed.

Lemma venv_in_project_aborts_witness :
  let w := example_world [("proj-Ab3dE", true)] "/home/u/proj" true in
  let s := example_state [("PIPENV_VENV_IN_PROJECT", "1")] in
  pipf w ["-n"; "proj"; "shell"] s =
    (Raise (SystemExit PyNone), log s [EPrint venv_in_project_msg]).
Proof.
  apply (venv_in_project_aborts
           (example_world [("proj-Ab3dE", true)] "/home/u/proj" true)
           ["-n"; "proj"; "shell"]
           (example_state [("PIPENV_VENV_IN_PROJECT", "1")]) "1").
  - reflexivity.
  - discriminate.
Defined.

(** ** The Pipfile check and the dispatcher *)

Lemma parse_args_ok (w : World) (argv : list string) (args : Args) (s : State) :
  w_parse_args w argv = Ret args ->
  parse_args w argv s = (Ret args, log s [EParseArgs argv]).
Proof. intros H. unfold parse_args, bind. rewrite emit_log, H. reflexivity. Qed.

Lemma locate_pipfile_named (w : World) (args : Args) (s : State) :
  truthy (of_name (name args)) = true ->
  locate_pipfile w args s = (Ret false, s).
Proof.
  intros H. unfold locate_pipfile.
  step (is_pipenv_venv_active_run s). by rewrite H.
Qed.

Lemma locate_pipfile_unnamed (w : World) (args : Args) (s : State) :
  truthy (of_name (name args)) = false ->
  locate_pipfile w args s =
    if w_exists w (PChild (w_cwd w) "Pipfile")
    then (Ret true, log s [EExists (PChild (w_cwd w) "Pipfile"); EWarn pipfile_found_msg])
    else (Raise (EnvironmentError pipfile_missing_msg),
          log s [EExists (PChild (w_cwd w) "Pipfile")]).
Proof.
  intros H. unfold locate_pipfile.
  step (is_pipenv_venv_active_run s). rewrite H. cbn [negb andb].
  unfold bind at 1. rewrite emit_log.
  destruct (w_exists w (PChild (w_cwd w) "Pipfile")); [| reflexivity].
  unfold bind, warn. rewrite emit_log, log_log. reflexivity.
Qed.

Lemma dispatch_cases (w : World) (args : Args) (first : string) (rest : list string)
    (s : State) :
  command args = first :: rest ->
  dispatch w args s =
    if String.eqb first "shell" && truthy (of_name (name args))
    then (shell_branch w args ;; ret None) s
    else (Ret (Some ("pipenv" :: command args)), s).
Proof.
  intros Hc. unfold dispatch, shell_condition. rewrite Hc.
  unfold bind at 1. unfold ret at 1. cbn [py_eq].
  by destruct (String.eqb first "shell" && truthy (of_name (name args))).
Qed.

Lemma subprocess_run_log (w : World) (cmd : list string) (cwd : option string) (s : State) :
  subprocess_run w cmd cwd s =
    (run_result w cmd cwd, log s [ERun cmd cwd]).
Proof.
  unfold subprocess_run, run_result, bind. rewrite emit_log.
  by destruct (w_run w cmd cwd).
Qed.

Lemma bind_raise_l {A B} (m : M A) (f : A -> M B) (s : State) (e : exn) :
  fst (m s) = Raise e -> bind m f s = (Raise e, snd (m s)).
Proof. unfold bind. destruct (m s) as [[a | e'] s']; simpl; congruence. Qed.

Lemma shell_condition_true (first : string) (n : option string) :
  String.eqb first "shell" && truthy (of_name n) = true <->
  first = "shell" /\ exists v, n = Some v /\ v <> "".
Proof.
  rewrite andb_true_iff, String.eqb_eq. split.
  - intros [Hf Hn]. split; [exact Hf |].
    destruct n as [v|]; [| discriminate]. exists v. split; [reflexivity |].
    intros ->. discriminate.
  - intros [Hf (v & -> & Hv)]. split; [exact Hf |]. by apply truthy_name.
Qed.

(** Without a name the script looks for a Pipfile, whatever
    [PIPENV_ACTIVE] says, and forwards from the current directory. *)
Lemma pipf_unnamed (w : World) (argv : list string) (args : Args)
    (first : string) (rest : list string) (s : State) :
  env_truthy (environ s) "PIPENV_VENV_IN_PROJECT" = false ->
  w_parse_args w argv = Ret args ->
  truthy (of_name (name args)) = false ->
  command args = first :: rest ->
  pipf w argv s =
    if w_exists w (PChild (w_cwd w) "Pipfile")
    then (run_result w ("pipenv" :: command args) None,
          log s [EParseArgs argv; EExists (PChild (w_cwd w) "Pipfile");
                 EWarn pipfile_found_msg; ERun ("pipenv" :: command args) None])
    else (Raise (EnvironmentError pipfile_missing_msg),
          log s [EParseArgs argv; EExists (PChild (w_cwd w) "Pipfile")]).
Proof.
  intros Hflag Hparse Hname Hcmd. unfold pipf.
  step (check_venv_in_project_pass s Hflag).
  step (parse_args_ok w argv args s Hparse).
  step (locate_pipfile_unnamed w args (log s [EParseArgs argv]) Hname).
  destruct (w_exists w (PChild (w_cwd w) "Pipfile")); rewrite log_log; [| reflexivity].
  unfold bind at 1. rewrite (dispatch_cases w args first rest _ Hcmd), Hname, andb_false_r.
  unfold forward. cbn [negb]. cbv iota. rewrite subprocess_run_log, log_log. reflexivity.
Qed.

(** With a name and a command other than [shell] the script resolves
    the working directory and forwards there. *)
Lemma pipf_named_forward (w : World) (argv : list string) (args : Args)
    (first : string) (rest : list string) (s : State) :
  env_truthy (environ s) "PIPENV_VENV_IN_PROJECT" = false ->
  w_parse_args w argv = Ret args ->
  truthy (of_name (name args)) = true ->
  command args = first :: rest ->
  first <> "shell" ->
  pipf w argv s =
    (working_dir <- get_working_dir w (of_name (name args)) ;;
     subprocess_run w ("pipenv" :: command args) (Some working_dir))
      (log s [EParseArgs argv]).
Proof.
  intros Hflag Hparse Hname Hcmd Hfirst. unfold pipf.
  step (check_venv_in_project_pass s Hflag).
  step (parse_args_ok w argv args s Hparse).
  step (locate_pipfile_named w args (log s [EParseArgs argv]) Hname).
  unfold bind at 1. rewrite (dispatch_cases w args first rest _ Hcmd).
  destruct (String.eqb_spec first "shell"); [done |]. reflexivity.
Qed.

(** With a name and the command [shell] the script is the
    interactive-shell branch. *)
Lemma pipf_named_shell (w : World) (argv : list string) (args : Args)
    (rest : list string) (s : State) :
  env_truthy (environ s) "PIPENV_VENV_IN_PROJECT" = false ->
  w_parse_args w argv = Ret args ->
  truthy (of_name (name args)) = true ->
  command args = "shell" :: rest ->
  pipf w argv s = shell_branch w args (log s [EParseArgs argv]).
Proof.
  intros Hflag Hparse Hname Hcmd. unfold pipf.
  step (check_venv_in_project_pass s Hflag).
  step (parse_args_ok w argv args s Hparse).
  step (locate_pipfile_named w args (log s [EParseArgs argv]) Hname).
  destruct (shell_branch_raises w args (log s [EParseArgs argv])) as [e He].
  assert (Hd : dispatch w args (log s [EParseArgs argv]) =
               (Raise e, snd (shell_branch w args (log s [EParseArgs argv])))).
  { rewrite (dispatch_cases w args "shell" rest _ Hcmd), Hname.
    change (String.eqb "shell" "shell" && true) with true. cbv iota.
    exact (bind_raise_l _ _ _ e He). }
  step Hd. rewrite <- He. symmetry. apply surjective_pairing.
Qed.

(** ** Ambiguous and missing environments *)

Lemma pipf_locator_raises (w : World) (argv : list string) (args : Args)
    (first : string) (rest : list string) (s s' : State) (e : exn) :
  env_truthy (environ s) "PIPENV_VENV_IN_PROJECT" = false ->
  w_parse_args w argv = Ret args ->
  truthy (of_name (name args)) = true ->
  command args = first :: rest ->
  first <> "shell" ->
  get_env_dir w (of_name (name args)) (log s [EParseArgs argv]) = (Raise e, s') ->
  pipf w argv s = (Raise e, s').
Proof.
  intros Hflag Hparse Hname Hcmd Hfirst Hloc.
  rewrite (pipf_named_forward w argv args first rest s Hflag Hparse Hname Hcmd Hfirst).
  unfold bind at 1, get_working_dir, bind at 1. by rewrite Hloc.
Qed.

(** With two directories of the name in the storage root, the
    script exits with status 0. *)
Lemma ambiguous_exit_status :
  let w := example_world [("proj-Ab3dE", true); ("proj-Zy9xW", true)] "/home/u/proj" false in
  let s := example_state [] in
  let r := get_env_dir w (PyStr "proj") s in
  dirs_named w (storage_root w (environ s)) "proj" = ["proj-Ab3dE"; "proj-Zy9xW"] /\
  fst r = Raise (SystemExit PyNone) /\
  trace (snd r) = [EGlob example_root "proj*"; EPrint ambiguous_msg] /\
  process_exit_status (fst r) = 0%Z /\
  process_exit_status
    (fst (pipf w ["-n"; "proj"; "install"; "requests"] s)) = 0%Z.
Proof. vm_compute. repeat split. Qed.

(** C3, as the script does it: when the storage root has two or more
    directories whose names start with the environment name, the
    locator prints the ambiguity message and leaves through [exit()],
    that is [SystemExit(None)]; it returns no path and does nothing
    else.  Nothing catches the exception, so a command forwarded for
    that name ends there, and the exit status of the process is 0. *)
Theorem get_env_dir_ambiguous (w : World) (n : string) (s : State) :
  n <> "" ->
  plain_name n = true ->
  (2 <= length (dirs_named w (storage_root w (environ s)) n))%nat ->
  let root := storage_root w (environ s) in
  get_env_dir w (PyStr n) s =
    (Raise (SystemExit PyNone), log s [EGlob root (n +:+ "*"); EPrint ambiguous_msg]) /\
  forall argv first rest,
    env_truthy (environ s) "PIPENV_VENV_IN_PROJECT" = false ->
    w_parse_args w argv = Ret (mkArgs (Some n) (first :: rest)) ->
    first <> "shell" ->
    pipf w argv s =
      (Raise (SystemExit PyNone),
       log s [EParseArgs argv; EGlob root (n +:+ "*"); EPrint ambiguous_msg]) /\
    process_exit_status (fst (pipf w argv s)) = 0%Z.
Proof.
  intros Hn Hplain Hdirs root. subst root.
  pose proof (dirs_named_le w (storage_root w (environ s)) n) as Hle.
  assert (Hloc : forall l, get_env_dir w (PyStr n) (log s l) =
    (Raise (SystemExit PyNone),
     log (log s l) [EGlob (storage_root w (environ s)) (n +:+ "*"); EPrint ambiguous_msg])).
  { intros l. rewrite (get_env_dir_named w n (log s l) Hn Hplain). cbv zeta.
    cbn [log environ].
    destruct (entries_named w (storage_root w (environ s)) n) as [|e [|e' l']];
      simpl in Hle; try lia.
    reflexivity. }
  split.
  - generalize (Hloc []). by rewrite log_nil.
  - intros argv first rest Hflag Hparse Hfirst.
    assert (Hrun : pipf w argv s =
      (Raise (SystemExit PyNone),
       log s [EParseArgs argv; EGlob (storage_root w (environ s)) (n +:+ "*"); EPrint ambiguous_msg])).
    { rewrite (pipf_locator_raises w argv _ first rest s _ (SystemExit PyNone)
                 Hflag Hparse (truthy_name n Hn) eq_refl Hfirst (Hloc [EParseArgs argv])).
      by rewrite log_log. }
    split; [exact Hrun | by rewrite Hrun].
Qed.

Lemma get_env_dir_ambiguous_witness :
  let w := example_world [("proj-Ab3dE", true); ("proj-Zy9xW", true)] "/home/u/proj" false in
  let s := example_state [("WORKON_HOME", "")] in
  get_env_dir w (PyStr "proj") s =
    (Raise (SystemExit PyNone), log s [EGlob example_root "proj*"; EPrint ambiguous_msg]) /\
  process_exit_status (fst (pipf w ["-n"; "proj"; "install"] s)) = 0%Z.
Proof.
  destruct (get_env_dir_ambiguous
              (example_world [("proj-Ab3dE", true); ("proj-Zy9xW", true)] "/home/u/proj" false)
              "proj" (example_state [("WORKON_HOME", "")]))
    as [Hloc Hrun]; [discriminate | reflexivity | vm_compute; lia |].
  split; [exact Hloc |].
  destruct (Hrun ["-n"; "proj"; "install"] "install" []) as [_ Hstatus];
    [reflexivity | reflexivity | discriminate | exact Hstatus].
Defined.

(** A storage root without any directory of the name, but with a
    regular file of the name: the locator returns the file. *)
Lemma get_env_dir_returns_file :
  let w := example_world [("proj.tar.gz", false)] "/home/u/proj" false in
  let s := example_state [] in
  dirs_named w (storage_root w (environ s)) "proj" = [] /\
  fst (get_env_dir w (PyStr "proj") s) = Ret (PyPath (PChild example_root "proj.tar.gz")).
Proof. vm_compute. split; reflexivity. Qed.

(** C7, as the script does it: when no entry of the storage root,
    directory or file, has a name that starts with the environment
    name, the locator raises [IndexError] and prints nothing.  Nothing
    catches the exception: the working-directory resolver lets it
    through, and a command forwarded for that name ends with it, with
    exit status 1. *)
Theorem get_env_dir_no_match (w : World) (n : string) (s : State) :
  n <> "" ->
  plain_name n = true ->
  entries_named w (storage_root w (environ s)) n = [] ->
  let root := storage_root w (environ s) in
  get_env_dir w (PyStr n) s = (Raise IndexError, log s [EGlob root (n +:+ "*")]) /\
  get_working_dir w (PyStr n) s = (Raise IndexError, log s [EGlob root (n +:+ "*")]) /\
  forall argv first rest,
    env_truthy (environ s) "PIPENV_VENV_IN_PROJECT" = false ->
    w_parse_args w argv = Ret (mkArgs (Some n) (first :: rest)) ->
    first <> "shell" ->
    pipf w argv s =
      (Raise IndexError, log s [EParseArgs argv; EGlob root (n +:+ "*")]) /\
    process_exit_status (fst (pipf w argv s)) = 1%Z.
Proof.
  intros Hn Hplain Hnone root. subst root.
  assert (Hloc : forall l, get_env_dir w (PyStr n) (log s l) =
    (Raise IndexError, log (log s l) [EGlob (storage_root w (environ s)) (n +:+ "*")])).
  { intros l. rewrite (get_env_dir_named w n (log s l) Hn Hplain). cbv zeta.
    cbn [log environ]. by rewrite Hnone. }
  assert (Hloc0 : get_env_dir w (PyStr n) s =
    (Raise IndexError, log s [EGlob (storage_root w (environ s)) (n +:+ "*")])).
  { generalize (Hloc []). by rewrite log_nil. }
  split; [exact Hloc0 |]. split.
  - unfold get_working_dir, bind. by rewrite Hloc0.
  - intros argv first rest Hflag Hparse Hfirst.
    assert (Hrun : pipf w argv s =
      (Raise IndexError, log s [EParseArgs argv; EGlob (storage_root w (environ s)) (n +:+ "*")])).
    { rewrite (pipf_locator_raises w argv _ first rest s _ IndexError
                 Hflag Hparse (truthy_name n Hn) eq_refl Hfirst (Hloc [EParseArgs argv])).
      by rewrite log_log. }
    split; [exact Hrun | by rewrite Hrun].
Qed.

Lemma get_env_dir_no_match_witness :
  let w := example_world [("proj-Ab3dE", true)] "/home/u/proj" false in
  let s := example_state [] in
  get_env_dir w (PyStr "web") s = (Raise IndexError, log s [EGlob example_root "web*"]) /\
  process_exit_status (fst (pipf w ["-n"; "web"; "install"] s)) = 1%Z.
Proof.
  destruct (get_env_dir_no_match
              (example_world [("proj-Ab3dE", true)] "/home/u/proj" false)
              "web" (example_state []))
    as (Hloc & _ & Hrun); [discriminate | reflexivity | reflexivity |].
  split; [exact Hloc |].
  destruct (Hrun ["-n"; "web"; "install"] "install" []) as [_ Hstatus];
    [reflexivity | reflexivity | discriminate | exact Hstatus].
Defined.

(** ** The active environment *)

(** C4 on an input where it fails: [PIPENV_ACTIVE] is ["1"],
    [VIRTUAL_ENV] names the environment and no name is given.  The
    script looks for a Pipfile in the current directory all the same:
    without one it raises [EnvironmentError], with one it forwards from
    the current directory; [VIRTUAL_ENV] is not used. *)
Lemma active_environment_ignored :
  let vars := [("PIPENV_ACTIVE", "1");
               ("VIRTUAL_ENV", "/home/u/.local/share/virtualenvs/proj-Ab3dE")] in
  pipf (example_world [("proj-Ab3dE", true)] "/home/u/proj" false)
       ["install"; "requests"] (example_state vars) =
    (Raise (EnvironmentError pipfile_missing_msg),
     log (example_state vars)
         [EParseArgs ["install"; "requests"]; EExists (PChild example_cwd "Pipfile")]) /\
  pipf (example_world [("proj-Ab3dE", true)] "/home/u/proj" true)
       ["install"; "requests"] (example_state vars) =
    (Ret tt,
     log (example_state vars)
         [EParseArgs ["install"; "requests"]; EExists (PChild example_cwd "Pipfile");
          EWarn pipfile_found_msg; ERun ["pipenv"; "install"; "requests"] None]).
Proof. vm_compute. split; reflexivity. Qed.

(** ** The choice of the branch *)

(** The command [shell] without a name, in a directory without
    Pipfile, is not forwarded: the script stops at the Pipfile check.
    The command [shell] with the name given as an empty string takes
    the forward branch. *)
Lemma shell_not_forwarded :
  let w := example_world [("proj-Ab3dE", true)] "/home/u/proj" false in
  let s := example_state [] in
  w_parse_args w ["shell"] = Ret (mkArgs None ["shell"]) /\
  pipf w ["shell"] s =
    (Raise (EnvironmentError pipfile_missing_msg),
     log s [EParseArgs ["shell"]; EExists (PChild example_cwd "Pipfile")]) /\
  w_parse_args w ["-n"; ""; "shell"] = Ret (mkArgs (Some "") ["shell"]) /\
  dispatch w (mkArgs (Some "") ["shell"]) s = (Ret (Some ["pipenv"; "shell"]), s).
Proof. vm_compute. repeat split. Qed.

(** C5, as the script does it: the dispatcher enters the
    interactive-shell branch exactly when the first token of the
    command is ["shell"] and the name is a non-empty string, and
    otherwise builds the command to forward without any effect; so
    the command [shell] without [--name] never enters the interactive
    branch.  With [PIPENV_ACTIVE] unset, that command is forwarded from
    the current directory when that holds a Pipfile, and otherwise the
    script has stopped with [EnvironmentError] before the
    dispatcher. *)
Theorem shell_branch_condition (w : World) (argv : list string) (args : Args)
    (first : string) (rest : list string) (s : State) :
  env_truthy (environ s) "PIPENV_VENV_IN_PROJECT" = false ->
  w_parse_args w argv = Ret args ->
  command args = first :: rest ->
  (forall s', takes_shell_branch w args s' <->
              first = "shell" /\ exists n, name args = Some n /\ n <> "") /\
  (forall s', ~ takes_shell_branch w args s' -> takes_forward_branch w args s') /\
  (name args = None ->
   environ s !! "PIPENV_ACTIVE" = None ->
   pipf w argv s =
     if w_exists w (PChild (w_cwd w) "Pipfile")
     then (run_result w ("pipenv" :: command args) None,
           log s [EParseArgs argv; EExists (PChild (w_cwd w) "Pipfile");
                  EWarn pipfile_found_msg; ERun ("pipenv" :: command args) None])
     else (Raise (EnvironmentError pipfile_missing_msg),
           log s [EParseArgs argv; EExists (PChild (w_cwd w) "Pipfile")])).
Proof.
  intros Hflag Hparse Hcmd.
  assert (Hiff : forall s', takes_shell_branch w args s' <->
            first = "shell" /\ exists n, name args = Some n /\ n <> "").
  { intros s'. rewrite <- shell_condition_true. unfold takes_shell_branch.
    rewrite (dispatch_cases w args first rest s' Hcmd).
    destruct (String.eqb first "shell" && truthy (of_name (name args))).
    - split; reflexivity.
    - split; [| discriminate]. intros H.
      destruct (shell_branch_raises w args s') as [e He].
      rewrite (bind_raise_l _ _ _ e He) in H. discriminate. }
  assert (Hfwd : forall s', ~ takes_shell_branch w args s' -> takes_forward_branch w args s').
  { intros s' H. unfold takes_shell_branch, takes_forward_branch in *.
    rewrite (dispatch_cases w args first rest s' Hcmd) in *.
    by destruct (String.eqb first "shell" && truthy (of_name (name args))). }
  split; [exact Hiff |]. split; [exact Hfwd |].
  intros Hnone _.
  apply (pipf_unnamed w argv args first rest s Hflag Hparse); [| exact Hcmd].
  by rewrite Hnone.
Qed.

Lemma shell_branch_condition_witness :
  let w := example_world [("proj-Ab3dE", true)] "/home/u/proj" true in
  let s := example_state [("SHELL", "/bin/sh")] in
  ~ takes_shell_branch w (mkArgs None ["shell"]) s /\
  takes_forward_branch w (mkArgs None ["shell"]) s /\
  pipf w ["shell"] s =
    (Ret tt,
     log s [EParseArgs ["shell"]; EExists (PChild example_cwd "Pipfile");
            EWarn pipfile_found_msg; ERun ["pipenv"; "shell"] None]).
Proof.
  destruct (shell_branch_condition
              (example_world [("proj-Ab3dE", true)] "/home/u/proj" true)
              ["shell"] (mkArgs None ["shell"]) "shell" []
              (example_state [("SHELL", "/bin/sh")])
              eq_refl eq_refl eq_refl) as (Hiff & Hfwd & Hnone).
  assert (Hnot : ~ takes_shell_branch
                     (example_world [("proj-Ab3dE", true)] "/home/u/proj" true)
                     (mkArgs None ["shell"]) (example_state [("SHELL", "/bin/sh")])).
  { intros H. apply Hiff in H as [_ (n & Hn & _)]. discriminate. }
  split; [exact Hnot |]. split; [exact (Hfwd _ Hnot) |].
  apply Hnone; reflexivity.
Defined.

(** ** The forward branch *)

Lemma get_working_dir_named (w : World) (n e text : string) (s : State) :
  n <> "" ->
  plain_name n = true ->
  entries_named w (storage_root w (environ s)) n = [e] ->
  w_text w (PChild (PChild (storage_root w (environ s)) e) ".project") = Some text ->
  get_working_dir w (PyStr n) s =
    (Ret (readline text),
     log s [EGlob (storage_root w (environ s)) (n +:+ "*");
            EOpen (PChild (PChild (storage_root w (environ s)) e) ".project")]).
Proof.
  intros Hn Hplain Hone Htext. unfold get_working_dir.
  unfold bind at 1. rewrite (get_env_dir_named w n s Hn Hplain). cbv zeta.
  rewrite Hone. unfold open_readline, bind. rewrite emit_log, log_log. cbn [environ log].
  rewrite Htext. reflexivity.
Qed.

(** C6: in the forward branch the child process is run with the
    argument list [pipenv] followed by the forwarded tokens in order.
    For a named environment its working directory is what the resolver
    reads from the marker file of that environment, the file's text
    when that is a single line.  Without a name and without an active
    environment, in a directory that holds a Pipfile, the child is run
    without a working directory of its own, so in the current
    directory. *)
Theorem pipf_forward (w : World) (argv : list string) (args : Args)
    (first : string) (rest : list string) (s : State) :
  env_truthy (environ s) "PIPENV_VENV_IN_PROJECT" = false ->
  w_parse_args w argv = Ret args ->
  command args = first :: rest ->
  let root := storage_root w (environ s) in
  let cmd := "pipenv" :: first :: rest in
  (forall n e text,
     name args = Some n -> n <> "" -> plain_name n = true ->
     first <> "shell" ->
     entries_named w root n = [e] ->
     w_text w (PChild (PChild root e) ".project") = Some text ->
     pipf w argv s =
       (run_result w cmd (Some (readline text)),
        log s [EParseArgs argv; EGlob root (n +:+ "*");
               EOpen (PChild (PChild root e) ".project");
               ERun cmd (Some (readline text))]) /\
     (one_line text = true -> readline text = text)) /\
  (name args = None ->
   environ s !! "PIPENV_ACTIVE" = None ->
   w_exists w (PChild (w_cwd w) "Pipfile") = true ->
   pipf w argv s =
     (run_result w cmd None,
      log s [EParseArgs argv; EExists (PChild (w_cwd w) "Pipfile");
             EWarn pipfile_found_msg; ERun cmd None])).
Proof.
  intros Hflag Hparse Hcmd root cmd. split.
  - intros n e text Hname Hn Hplain Hfirst Hone Htext.
    split; [| apply readline_one_line].
    rewrite (pipf_named_forward w argv args first rest s Hflag Hparse); try done.
    + rewrite Hname. cbn [of_name]. unfold bind.
      rewrite (get_working_dir_named w n e text (log s [EParseArgs argv]) Hn Hplain Hone Htext).
      rewrite subprocess_run_log, !log_log, Hcmd. reflexivity.
    + rewrite Hname. by apply truthy_name.
  - intros Hname _ Hpipfile.
    rewrite (pipf_unnamed w argv args first rest s Hflag Hparse); try done.
    + by rewrite Hpipfile, Hcmd.
    + by rewrite Hname.
Qed.

Lemma pipf_forward_witness :
  let w := example_world [("proj-Ab3dE", true); ("web-Qr5tU", true)] "/home/u/proj" true in
  let s := example_state [("SHELL", "/bin/sh")] in
  pipf w ["-n"; "proj"; "install"; "requests"] s =
    (Ret tt,
     log s [EParseArgs ["-n"; "proj"; "install"; "requests"];
            EGlob example_root "proj*";
            EOpen (PChild (PChild example_root "proj-Ab3dE") ".project");
            ERun ["pipenv"; "install"; "requests"] (Some "/home/u/proj")]) /\
  pipf w ["install"; "requests"] s =
    (Ret tt,
     log s [EParseArgs ["install"; "requests"]; EExists (PChild example_cwd "Pipfile");
            EWarn pipfile_found_msg; ERun ["pipenv"; "install"; "requests"] None]).
Proof.
  split.
  - destruct (pipf_forward
                (example_world [("proj-Ab3dE", true); ("web-Qr5tU", true)] "/home/u/proj" true)
                ["-n"; "proj"; "install"; "requests"]
                (mkArgs (Some "proj") ["install"; "requests"]) "install" ["requests"]
                (example_state [("SHELL", "/bin/sh")]) eq_refl eq_refl eq_refl)
      as [Hnamed _].
    destruct (Hnamed "proj" "proj-Ab3dE" "/home/u/proj") as [Hrun _];
      [reflexivity | discriminate | reflexivity | discriminate
      | reflexivity | reflexivity | exact Hrun].
  - destruct (pipf_forward
                (example_world [("proj-Ab3dE", true); ("web-Qr5tU", true)] "/home/u/proj" true)
                ["install"; "requests"]
                (mkArgs None ["install"; "requests"]) "install" ["requests"]
                (example_state [("SHELL", "/bin/sh")]) eq_refl eq_refl eq_refl)
      as [_ Hunnamed].
    apply Hunnamed; reflexivity.
Defined.

(** ** The end of the interactive-shell branch *)

Lemma deliver_log (signals : list (nat * nat)) (s : State) :
  deliver sigwinch_passthrough signals s =
    (Ret tt,
     log s (flat_map (fun dims => [ETerminalSize; ESetwinsize (fst dims) (snd dims)])
                     signals)).
Proof.
  revert s. induction signals as [|dims signals IH]; intros s.
  - simpl. by rewrite log_nil.
  - cbn [deliver flat_map]. unfold bind at 1, sigwinch_passthrough, bind at 1.
    rewrite !emit_log, IH, !log_log. reflexivity.
Qed.

Lemma interact_log (w : World) (s : State) :
  w_interact w = None ->
  interact w sigwinch_passthrough s = (Ret tt, log s (EInteract :: resize_events w)).
Proof.
  intros H. unfold interact, bind. rewrite emit_log, deliver_log, H, log_log.
  reflexivity.
Qed.

Lemma shell_environ_other (env : gmap string string) (k : string) :
  k <> "PIP_SHIMS_BASE_MODULE" -> k <> "PIPENV_ACTIVE" ->
  shell_environ env !! k = env !! k.
Proof.
  intros H1 H2. unfold shell_environ.
  rewrite lookup_delete_ne by done. by rewrite lookup_insert_ne.
Qed.

Lemma storage_root_shell_environ (w : World) (env : gmap string string) :
  storage_root w (shell_environ env) = storage_root w env.
Proof. unfold storage_root. by rewrite shell_environ_other. Qed.

Lemma sys_exit_status_byte (status : Z) :
  (0 <= status < 256)%Z -> sys_exit_status (PyInt status) = status.
Proof.
  intros H. unfold sys_exit_status.
  replace (Z.leb (- 2 ^ 63) status && Z.ltb status (2 ^ 63)) with true.
  - change 255%Z with (Z.ones 8). rewrite Z.land_ones by lia.
    apply Z.mod_small. simpl. lia.
  - symmetry. apply andb_true_intro. split; [apply Z.leb_le | apply Z.ltb_lt]; lia.
Qed.

(** The body of the [with] block when every call in it returns. *)
Lemma shell_session_completes (w : World) (args : Args) (n e : string) (s : State) :
  name args = Some n ->
  n <> "" ->
  plain_name n = true ->
  let root := storage_root w (environ s) in
  let shell := env_value (environ s) "SHELL" in
  let line := "source " +:+ path_str (PChild root e) +:+ "/bin/activate" in
  w_spawn w shell ["-i"] = None ->
  entries_named w root n = [e] ->
  w_sendline w line = None ->
  w_interact w = None ->
  w_close w = None ->
  shell_session w args s =
    (Raise (SystemExit (w_exitstatus w)),
     log s ([ESpawn shell ["-i"]; EGlob root (n +:+ "*"); ESendline line;
             ESignal; EInteract] ++ resize_events w ++ [EClose])).
Proof.
  intros Hname Hn Hplain root shell line Hspawn Hone Hsend Hint Hclose.
  unfold shell_session, bind at 1, getenv. fold shell.
  unfold bind at 1. rewrite emit_log.
  unfold bind at 1. rewrite Hspawn. cbn [outcome]. unfold ret at 1.
  unfold bind at 1. rewrite Hname. cbn [of_name].
  rewrite (get_env_dir_named w n _ Hn Hplain). cbv zeta. cbn [environ log].
  fold root. rewrite Hone. fold line.
  unfold bind at 1. rewrite emit_log.
  unfold bind at 1. rewrite Hsend. cbn [outcome]. unfold ret at 1.
  unfold bind at 1. rewrite emit_log.
  unfold bind at 1. rewrite (interact_log w _ Hint).
  unfold bind at 1. rewrite emit_log.
  unfold bind at 1. rewrite Hclose. cbn [outcome]. unfold ret at 1.
  unfold sys_exit, raise. rewrite !log_log. reflexivity.
Qed.

(** C8: when the subshell is spawned, the activation line is sent,
    the interactive relay runs to its end and [close] returns, the
    last thing the script does is to close the child pseudo-terminal,
    and it leaves with [SystemExit] of the child's exit status: that
    status is the exit status of the process. *)
Theorem shell_exit_status (w : World) (argv : list string) (args : Args)
    (rest : list string) (n e : string) (s : State) :
  env_truthy (environ s) "PIPENV_VENV_IN_PROJECT" = false ->
  w_parse_args w argv = Ret args ->
  name args = Some n ->
  n <> "" ->
  plain_name n = true ->
  command args = "shell" :: rest ->
  let root := storage_root w (environ s) in
  let shell := env_value (environ s) "SHELL" in
  let line := "source " +:+ path_str (PChild root e) +:+ "/bin/activate" in
  w_spawn w shell ["-i"] = None ->
  entries_named w root n = [e] ->
  w_sendline w line = None ->
  w_interact w = None ->
  w_close w = None ->
  pipf w argv s =
    (Raise (SystemExit (w_exitstatus w)),
     mkState (shell_environ (environ s))
             (trace s ++ [EParseArgs argv; ETerminalSize; ESpawn shell ["-i"];
                          EGlob root (n +:+ "*"); ESendline line; ESignal; EInteract]
                      ++ resize_events w ++ [EClose])) /\
  (forall status : Z,
     w_exitstatus w = PyInt status -> (0 <= status < 256)%Z ->
     process_exit_status (fst (pipf w argv s)) = status).
Proof.
  intros Hflag Hparse Hname Hn Hplain Hcmd root shell line Hspawn Hone Hsend Hint Hclose.
  assert (Hrun : pipf w argv s =
    (Raise (SystemExit (w_exitstatus w)),
     mkState (shell_environ (environ s))
             (trace s ++ [EParseArgs argv; ETerminalSize; ESpawn shell ["-i"];
                          EGlob root (n +:+ "*"); ESendline line; ESignal; EInteract]
                      ++ resize_events w ++ [EClose]))).
  { rewrite (pipf_named_shell w argv args rest s Hflag Hparse); [| | exact Hcmd].
    2: { rewrite Hname. by apply truthy_name. }
    unfold shell_branch, bind at 1 2 3, environ_set, environ_pop, emit.
    cbn [environ trace log]. fold (shell_environ (environ s)).
    unfold temp_environ, bind, environ_copy, try_finally.
    rewrite (shell_session_completes w args n e _ Hname Hn Hplain); cbn [environ trace].
    - rewrite storage_root_shell_environ. fold root.
      unfold env_value. rewrite shell_environ_other by done.
      fold (env_value (environ s) "SHELL"). fold shell. fold line.
      cbn [environ_clear environ_update environ trace log].
      f_equal. f_equal; [apply (right_id_L ∅ (∪)) |].
      rewrite <- !app_assoc. reflexivity.
    - unfold env_value. rewrite shell_environ_other by done. exact Hspawn.
    - rewrite storage_root_shell_environ. exact Hone.
    - rewrite storage_root_shell_environ. exact Hsend.
    - exact Hint.
    - exact Hclose. }
  split; [exact Hrun |].
  intros status Hstatus Hbyte. rewrite Hrun. cbn [fst process_exit_status].
  rewrite Hstatus. by apply sys_exit_status_byte.
Qed.

Lemma shell_exit_status_witness :
  let w := example_world [("proj-Ab3dE", true)] "/home/u/proj" false in
  let s := example_state [("SHELL", "/bin/sh"); ("PIP_SHIMS_BASE_MODULE", "pipenv.patched.notpip")] in
  fst (pipf w ["-n"; "proj"; "shell"] s) = Raise (SystemExit (PyInt 3)) /\
  process_exit_status (fst (pipf w ["-n"; "proj"; "shell"] s)) = 3%Z.
Proof.
  destruct (shell_exit_status
              (example_world [("proj-Ab3dE", true)] "/home/u/proj" false)
              ["-n"; "proj"; "shell"] (mkArgs (Some "proj") ["shell"]) [] "proj" "proj-Ab3dE"
              (example_state [("SHELL", "/bin/sh");
                              ("PIP_SHIMS_BASE_MODULE", "pipenv.patched.notpip")])
              eq_refl eq_refl eq_refl ltac:(discriminate) eq_refl eq_refl
              eq_refl eq_refl eq_refl eq_refl eq_refl) as [Hrun Hstatus].
  split.
  - rewrite Hrun. reflexivity.
  - apply Hstatus; [reflexivity | lia].
Defined.

(** * Further properties of the script *)

(** ** The context manager *)

(** X1: [temp_environ] is transparent but for the environment: the
    [with] block ends as its body ends, with the events of the body,
    and [os.environ] is again what it was on entry, whatever the body
    did to it and whether it returned or raised. *)
Theorem temp_environ_scoped {A} (body : M A) (s : State) :
  fst (temp_environ body s) = fst (body s) /\
  trace (snd (temp_environ body s)) = trace (snd (body s)) /\
  environ (snd (temp_environ body s)) = environ s.
Proof.
  destruct (temp_environ_result body s) as [Hr Ht].
  split; [exact Hr |]. split; [exact Ht | apply temp_environ_restores].
Qed.

(** ** The locator and the resolver *)

(** X2: for a plain, non-empty name the locator returns a value
    exactly when one single entry of the storage root starts with the
    name, and the value is the path of that entry. *)
Theorem get_env_dir_unique (w : World) (n : string) (s : State) (v : pyval) :
  n <> "" ->
  plain_name n = true ->
  fst (get_env_dir w (PyStr n) s) = Ret v <->
  exists e, entries_named w (storage_root w (environ s)) n = [e] /\
            v = PyPath (PChild (storage_root w (environ s)) e).
Proof.
  intros Hn Hplain. rewrite (get_env_dir_named w n s Hn Hplain). cbv zeta.
  destruct (entries_named w (storage_root w (environ s)) n) as [|e [|e' l]]; simpl.
  - split; [discriminate | intros (e & He & _); discriminate].
  - split.
    + intros H. exists e. split; [reflexivity | congruence].
    + intros (e0 & He & ->). congruence.
  - split; [discriminate | intros (e0 & He & _); discriminate].
Qed.

Lemma get_env_dir_unique_witness :
  let w := example_world [("proj-Ab3dE", true); ("web-Qr5tU", true)] "/home/u/proj" false in
  fst (get_env_dir w (PyStr "web") (example_state [])) =
    Ret (PyPath (PChild example_root "web-Qr5tU")).
Proof.
  apply (get_env_dir_unique
           (example_world [("proj-Ab3dE", true); ("web-Qr5tU", true)] "/home/u/proj" false)
           "web" (example_state []) (PyPath (PChild example_root "web-Qr5tU")));
    [discriminate | reflexivity |].
  exists "web-Qr5tU". split; reflexivity.
Defined.

(** X3: without a name ([None] or the empty string) the resolver
    always raises [TypeError]: the locator hands it the value of
    [VIRTUAL_ENV], a string or [None], which has no [/] operator.  No
    directory is searched and no file is opened. *)
Theorem get_working_dir_unnamed (w : World) (envname : pyval) (s : State) :
  truthy envname = false ->
  get_working_dir w envname s = (Raise TypeError, s).
Proof.
  intros H. unfold get_working_dir, get_env_dir, bind, getenv, env_value.
  rewrite H. simpl. by destruct (environ s !! "VIRTUAL_ENV").
Qed.

Lemma get_working_dir_unnamed_witness :
  let w := example_world [("proj-Ab3dE", true)] "/home/u/proj" true in
  let s := example_state [("VIRTUAL_ENV", "/home/u/.local/share/virtualenvs/proj-Ab3dE")] in
  get_working_dir w PyNone s = (Raise TypeError, s) /\
  get_working_dir w (PyStr "") s = (Raise TypeError, s).
Proof.
  split.
  - apply (get_working_dir_unnamed
             (example_world [("proj-Ab3dE", true)] "/home/u/proj" true) PyNone
             (example_state [("VIRTUAL_ENV", "/home/u/.local/share/virtualenvs/proj-Ab3dE")])).
    reflexivity.
  - apply (get_working_dir_unnamed
             (example_world [("proj-Ab3dE", true)] "/home/u/proj" true) (PyStr "")
             (example_state [("VIRTUAL_ENV", "/home/u/.local/share/virtualenvs/proj-Ab3dE")])).
    reflexivity.
Defined.

(** X4: when the environment is found but its marker file cannot be
    opened, the resolver raises the error of [open]; a command
    forwarded for that name ends with it and no child process is
    run. *)
Theorem get_working_dir_no_marker (w : World) (n e : string) (s : State) :
  n <> "" ->
  plain_name n = true ->
  let root := storage_root w (environ s) in
  entries_named w root n = [e] ->
  w_text w (PChild (PChild root e) ".project") = None ->
  get_working_dir w (PyStr n) s =
    (Raise (OSError "open"),
     log s [EGlob root (n +:+ "*"); EOpen (PChild (PChild root e) ".project")]) /\
  forall argv first rest,
    env_truthy (environ s) "PIPENV_VENV_IN_PROJECT" = false ->
    w_parse_args w argv = Ret (mkArgs (Some n) (first :: rest)) ->
    first <> "shell" ->
    pipf w argv s =
      (Raise (OSError "open"),
       log s [EParseArgs argv; EGlob root (n +:+ "*");
              EOpen (PChild (PChild root e) ".project")]).
Proof.
  intros Hn Hplain root Hone Htext. subst root.
  assert (Hres : forall l, get_working_dir w (PyStr n) (log s l) =
    (Raise (OSError "open"),
     log (log s l) [EGlob (storage_root w (environ s)) (n +:+ "*");
                    EOpen (PChild (PChild (storage_root w (environ s)) e) ".project")])).
  { intros l. unfold get_working_dir, bind at 1.
    rewrite (get_env_dir_named w n (log s l) Hn Hplain). cbv zeta. cbn [log environ].
    rewrite Hone. unfold open_readline, bind. rewrite emit_log, Htext.
    unfold raise. by rewrite log_log. }
  split.
  - generalize (Hres []). by rewrite log_nil.
  - intros argv first rest Hflag Hparse Hfirst.
    rewrite (pipf_named_forward w argv _ first rest s Hflag Hparse
               (truthy_name n Hn) eq_refl Hfirst).
    unfold bind. cbn [name of_name]. rewrite (Hres [EParseArgs argv]).
    by rewrite log_log.
Qed.

Lemma get_working_dir_no_marker_witness :
  let w := example_world [("proj.tar.gz", false)] "/home/u/proj" false in
  let s := example_state [] in
  fst (get_working_dir w (PyStr "proj") s) = Raise (OSError "open") /\
  fst (pipf w ["-n"; "proj"; "install"] s) = Raise (OSError "open").
Proof.
  destruct (get_working_dir_no_marker
              (example_world [("proj.tar.gz", false)] "/home/u/proj" false)
              "proj" "proj.tar.gz" (example_state []))
    as [Hres Hrun]; [discriminate | reflexivity | reflexivity | reflexivity |].
  split; [by rewrite Hres |].
  rewrite (Hrun ["-n"; "proj"; "install"] "install" []);
    [reflexivity | reflexivity | reflexivity | discriminate].
Defined.

Lemma readline_spec (text : string) :
  exists rest, text = readline text +:+ rest /\
    ((one_line (readline text) = true /\ rest = "") \/
     exists line, readline text = line +:+ newline /\ one_line line = true).
Proof.
  induction text as [|c text (rest & Htext & IH)].
  - exists "". split; [reflexivity |]. left. split; reflexivity.
  - simpl. destruct (Ascii.eqb c "010") eqn:Hc.
    + apply Ascii.eqb_eq in Hc as ->. exists text. split; [reflexivity |].
      right. exists "". split; reflexivity.
    + exists rest. split; [rewrite Htext at 1; reflexivity |].
      destruct IH as [[Hone ->] | (line & Hline & Hone)].
      * left. split; [| reflexivity]. unfold one_line in *. simpl. by rewrite Hc.
      * right. exists (String c line). split; [simpl; by rewrite Hline |].
        unfold one_line in *. simpl. by rewrite Hc.
Qed.

(** X5: what the resolver returns for any marker file: either the
    whole text of the file, when that has no newline, or the first
    line with its newline; what follows the first line is ignored. *)
Theorem get_working_dir_result (w : World) (envname : pyval) (s s' : State)
    (p : Path) (text : string) :
  get_env_dir w envname s = (Ret (PyPath p), s') ->
  w_text w (PChild p ".project") = Some text ->
  exists working_dir rest,
    get_working_dir w envname s =
      (Ret working_dir, log s' [EOpen (PChild p ".project")]) /\
    text = working_dir +:+ rest /\
    ((one_line working_dir = true /\ rest = "") \/
     exists line, working_dir = line +:+ newline /\ one_line line = true).
Proof.
  intros Hdir Htext. destruct (readline_spec text) as (rest & Hsplit & Hshape).
  exists (readline text), rest. split; [| split; [exact Hsplit | exact Hshape]].
  unfold get_working_dir, bind at 1. rewrite Hdir.
  unfold open_readline, bind. by rewrite emit_log, Htext.
Qed.

Lemma get_working_dir_result_witness :
  let w := example_world [("proj-Ab3dE", true)] "/home/u/proj" false in
  exists working_dir rest,
    get_working_dir w (PyStr "proj") (example_state []) =
      (Ret working_dir,
       log (log (example_state []) [EGlob example_root "proj*"])
           [EOpen (PChild (PChild example_root "proj-Ab3dE") ".project")]) /\
    "/home/u/proj" = working_dir +:+ rest /\
    ((one_line working_dir = true /\ rest = "") \/
     exists line, working_dir = line +:+ newline /\ one_line line = true).
Proof.
  apply (get_working_dir_result
           (example_world [("proj-Ab3dE", true)] "/home/u/proj" false)
           (PyStr "proj") (example_state [])
           (log (example_state []) [EGlob example_root "proj*"])
           (PChild example_root "proj-Ab3dE") "/home/u/proj");
    reflexivity.
Defined.

(** With a name the locator searches the storage root. *)
Lemma get_env_dir_search (w : World) (envname : pyval) (s : State) :
  truthy envname = true ->
  get_env_dir w envname s =
    match envname with
    | PyStr n => search_root w (storage_root w (environ s)) n s
    | _ => (Raise TypeError, s)
    end.
Proof.
  intros H. unfold get_env_dir. rewrite H. cbn [negb]. cbv iota.
  unfold bind at 1. unfold getenv at 1. unfold env_value, storage_root.
  destruct (environ s !! "WORKON_HOME") as [root|]; cbn [truthy].
  - destruct (String.eqb root ""); cbn [negb]; cbv iota; by destruct envname.
  - cbn [negb]. cbv iota. by destruct envname.
Qed.

(** The search reads nothing of the state. *)
Lemma search_same (w : World) (root : Path) (n : string) (s1 s2 : State) :
  trace s1 = trace s2 ->
  fst (search_root w root n s1) = fst (search_root w root n s2) /\
  trace (snd (search_root w root n s1)) = trace (snd (search_root w root n s2)).
Proof.
  intros Ht. unfold search_root, glob, bind, emit, print, exit, emit, raise, ret.
  cbn [trace environ]. rewrite Ht.
  destruct (simple_pattern (n +:+ "*")).
  - destruct (List.map (PChild root) (List.filter (fnmatch (n +:+ "*")) (w_entries w root)))
      as [|p [|p' l]]; simpl; by rewrite ?Ht.
  - destruct (w_glob_other w root (n +:+ "*")) as [[|p [|p' l]] | e]; simpl; by rewrite ?Ht.
Qed.

(** X6: an empty [WORKON_HOME] counts as none: the locator answers as
    if the variable were unset, for every name, and searches the
    default storage root. *)
Theorem workon_home_empty (w : World) (envname : pyval) (s : State) :
  environ s !! "WORKON_HOME" = Some "" ->
  let unset := mkState (delete "WORKON_HOME" (environ s)) (trace s) in
  fst (get_env_dir w envname s) = fst (get_env_dir w envname unset) /\
  trace (snd (get_env_dir w envname s)) = trace (snd (get_env_dir w envname unset)) /\
  storage_root w (environ s) = w_expanduser w "~/.local/share/virtualenvs".
Proof.
  intros Hempty unset.
  assert (Hroot : storage_root w (environ s) = w_expanduser w "~/.local/share/virtualenvs").
  { unfold storage_root. by rewrite Hempty. }
  assert (Hroot' : storage_root w (environ unset) = w_expanduser w "~/.local/share/virtualenvs").
  { unfold storage_root. cbn [environ unset]. by rewrite lookup_delete_eq. }
  split; [| split; [| exact Hroot]].
  - destruct (truthy envname) eqn:Hname.
    + rewrite !get_env_dir_search by done. rewrite Hroot, Hroot'.
      destruct envname; try reflexivity. by apply search_same.
    + unfold get_env_dir. rewrite Hname. unfold getenv, env_value.
      cbn [negb environ unset fst]. by rewrite lookup_delete_ne.
  - destruct (truthy envname) eqn:Hname.
    + rewrite !get_env_dir_search by done. rewrite Hroot, Hroot'.
      destruct envname; try reflexivity. by apply search_same.
    + unfold get_env_dir. rewrite Hname. reflexivity.
Qed.

Lemma workon_home_empty_witness :
  let w := example_world [("proj-Ab3dE", true)] "/home/u/proj" false in
  let s := example_state [("WORKON_HOME", "")] in
  let unset := mkState (delete "WORKON_HOME" (environ s)) (trace s) in
  fst (get_env_dir w (PyStr "proj") s) = fst (get_env_dir w (PyStr "proj") unset) /\
  trace (snd (get_env_dir w (PyStr "proj") s)) =
    trace (snd (get_env_dir w (PyStr "proj") unset)) /\
  storage_root w (environ s) = w_expanduser w "~/.local/share/virtualenvs".
Proof.
  apply (workon_home_empty
           (example_world [("proj-Ab3dE", true)] "/home/u/proj" false)
           (PyStr "proj") (example_state [("WORKON_HOME", "")])).
  reflexivity.
Defined.

(** ** The Pipfile check *)

(** X7: without a name ([--name] absent or empty) and without a
    Pipfile in the current directory the script stops with
    [EnvironmentError] right after the check, whatever
    [PIPENV_ACTIVE] and [VIRTUAL_ENV] are and whatever the command is:
    no environment is looked up and no child process is started.  The
    exit status is 1. *)
Theorem pipf_requires_pipfile (w : World) (argv : list string) (args : Args) (s : State) :
  env_truthy (environ s) "PIPENV_VENV_IN_PROJECT" = false ->
  w_parse_args w argv = Ret args ->
  truthy (of_name (name args)) = false ->
  w_exists w (PChild (w_cwd w) "Pipfile") = false ->
  pipf w argv s =
    (Raise (EnvironmentError pipfile_missing_msg),
     log s [EParseArgs argv; EExists (PChild (w_cwd w) "Pipfile")]) /\
  process_exit_status (fst (pipf w argv s)) = 1%Z.
Proof.
  intros Hflag Hparse Hname Hnone.
  assert (Hrun : pipf w argv s =
    (Raise (EnvironmentError pipfile_missing_msg),
     log s [EParseArgs argv; EExists (PChild (w_cwd w) "Pipfile")])).
  { unfold pipf.
    step (check_venv_in_project_pass s Hflag).
    step (parse_args_ok w argv args s Hparse).
    step (locate_pipfile_unnamed w args (log s [EParseArgs argv]) Hname).
    rewrite Hnone. by rewrite log_log. }
  split; [exact Hrun | by rewrite Hrun].
Qed.

Lemma pipf_requires_pipfile_witness :
  let w := example_world [("proj-Ab3dE", true)] "/home/u/proj" false in
  let s := example_state [("PIPENV_ACTIVE", "1"); ("VIRTUAL_ENV", "/home/u/venv")] in
  pipf w ["-n"; ""; "install"] s =
    (Raise (EnvironmentError pipfile_missing_msg),
     log s [EParseArgs ["-n"; ""; "install"]; EExists (PChild example_cwd "Pipfile")]) /\
  process_exit_status (fst (pipf w ["-n"; ""; "install"] s)) = 1%Z.
Proof.
  apply (pipf_requires_pipfile
           (example_world [("proj-Ab3dE", true)] "/home/u/proj" false)
           ["-n"; ""; "install"] (mkArgs (Some "") ["install"])
           (example_state [("PIPENV_ACTIVE", "1"); ("VIRTUAL_ENV", "/home/u/venv")]));
    reflexivity.
Defined.

(** ** Changing to the directory of an environment *)

(** X12: [cd_to_env_dir] resolves the name it is given in every
    process environment, also when [PIPENV_ACTIVE] is ["1"], and
    changes directory only when the resolver returned; without a name
    it raises [TypeError] and the directory is not changed. *)
Theorem cd_to_env_dir_by_name (chdir : string -> M unit) (w : World) (envname : pyval)
    (s : State) :
  cd_to_env_dir chdir w envname s =
    match get_working_dir w envname s with
    | (Ret working_dir, s') => chdir working_dir s'
    | (Raise e, s') => (Raise e, s')
    end /\
  (truthy envname = false -> cd_to_env_dir chdir w envname s = (Raise TypeError, s)).
Proof.
  assert (H : cd_to_env_dir chdir w envname s =
    match get_working_dir w envname s with
    | (Ret working_dir, s') => chdir working_dir s'
    | (Raise e, s') => (Raise e, s')
    end).
  { unfold cd_to_env_dir. step (is_pipenv_venv_active_run s). reflexivity. }
  split; [exact H |].
  intros Hname. rewrite H. unfold get_working_dir, get_env_dir, bind, getenv, env_value.
  rewrite Hname. simpl. by destruct (environ s !! "VIRTUAL_ENV").
Qed.

Lemma cd_to_env_dir_by_name_witness :
  let w := example_world [("proj-Ab3dE", true)] "/home/u/proj" false in
  let s := example_state [("PIPENV_ACTIVE", "1"); ("VIRTUAL_ENV", "/home/u/venv")] in
  cd_to_env_dir (fun _ => ret tt) w (PyStr "") s = (Raise TypeError, s).
Proof.
  apply (cd_to_env_dir_by_name (fun _ => ret tt)
           (example_world [("proj-Ab3dE", true)] "/home/u/proj" false) (PyStr "")
           (example_state [("PIPENV_ACTIVE", "1"); ("VIRTUAL_ENV", "/home/u/venv")])).
  reflexivity.
Defined.

(** ** The subshell *)

Lemma interact_trace (w : World) (s : State) :
  trace (snd (interact w sigwinch_passthrough s)) =
    trace s ++ EInteract :: resize_events w.
Proof.
  unfold interact, bind. rewrite emit_log, deliver_log.
  unfold resize_events. destruct (w_interact w); simpl; by rewrite <- app_assoc.
Qed.




(** ** What a run leaves behind *)

Lemma keeps_ret {A} (a : A) : keeps_environ (ret a).
Proof. by intros s. Qed.

Lemma keeps_raise {A} (e : exn) : keeps_environ (@raise A e).
Proof. by intros s. Qed.

Lemma keeps_emit (e : event) : keeps_environ (emit e).
Proof. by intros s. Qed.

Lemma keeps_getenv (k : string) : keeps_environ (getenv k).
Proof. by intros s. Qed.

Lemma keeps_outcome (failure : option exn) : keeps_environ (outcome failure).
Proof. by destruct failure; intros s. Qed.

Lemma keeps_bind {A B} (m : M A) (f : A -> M B) :
  keeps_environ m -> (forall a, keeps_environ (f a)) -> keeps_environ (bind m f).
Proof.
  intros Hm Hf s. unfold bind. specialize (Hm s).
  destruct (m s) as [[a | e] s']; simpl in *; [| exact Hm].
  by rewrite (Hf a s').
Qed.

(** Splits a command into its parts, down to the primitives. *)
Ltac keeps :=
  repeat first
    [ apply keeps_ret | apply keeps_raise | apply keeps_emit
    | apply keeps_getenv | apply keeps_outcome
    | apply keeps_bind; [| intros ?]
    | match goal with
      | |- keeps_environ (match ?x with _ => _ end) => destruct x
      end ].

Lemma keeps_get_env_dir (w : World) (envname : pyval) : keeps_environ (get_env_dir w envname).
Proof. unfold get_env_dir, glob, print, exit. keeps. Qed.

Lemma keeps_get_working_dir (w : World) (envname : pyval) :
  keeps_environ (get_working_dir w envname).
Proof.
  unfold get_working_dir. apply keeps_bind; [apply keeps_get_env_dir |].
  intros v. unfold open_readline. keeps.
Qed.

Lemma keeps_forward (w : World) (args : Args) (in_correct_dir : bool)
    (cmd : option (list string)) :
  keeps_environ (forward w args in_correct_dir cmd).
Proof.
  unfold forward, subprocess_run. destruct cmd as [cmd|]; [| apply keeps_raise].
  destruct in_correct_dir; cbn [negb]; cbv iota; [keeps |].
  apply keeps_bind; [apply keeps_get_working_dir | intros d; keeps].
Qed.

Lemma shell_branch_shell_environ (w : World) (args : Args) (s : State) :
  environ (snd (shell_branch w args s)) = shell_environ (environ s).
Proof.
  unfold shell_branch, bind at 1 2 3, environ_set, environ_pop, emit.
  by rewrite temp_environ_restores.
Qed.

(** The dispatcher followed by the forwarding. *)
Lemma dispatch_forward_environ (w : World) (args : Args) (in_correct_dir : bool) (s : State) :
  environ (snd ((cmd <- dispatch w args ;; forward w args in_correct_dir cmd) s)) =
    if match command args with
       | first :: _ => String.eqb first "shell" && truthy (of_name (name args))
       | [] => false
       end
    then shell_environ (environ s) else environ s.
Proof.
  destruct (command args) as [|first rest] eqn:Hcmd.
  - unfold bind, dispatch, shell_condition. by rewrite Hcmd.
  - unfold bind at 1. rewrite (dispatch_cases w args first rest s Hcmd).
    destruct (String.eqb first "shell" && truthy (of_name (name args))).
    + destruct (shell_branch_raises w args s) as [e He].
      rewrite (bind_raise_l _ _ _ e He). cbn [snd]. apply shell_branch_shell_environ.
    + apply keeps_forward.
Qed.

(** X8: the script changes the process environment in the
    interactive-shell branch only.  A run that enters it ends with
    [PIPENV_ACTIVE] set to ["1"] and [PIP_SHIMS_BASE_MODULE] removed;
    every other run, forwarded or failed, leaves [os.environ] exactly
    as it was. *)
Theorem pipf_environ (w : World) (argv : list string) (s : State) :
  environ (snd (pipf w argv s)) =
    if enters_shell w argv (environ s)
    then shell_environ (environ s)
    else environ s.
Proof.
  unfold pipf, enters_shell.
  destruct (env_truthy (environ s) "PIPENV_VENV_IN_PROJECT") eqn:Hflag; cbn [negb andb].
  - step (check_venv_in_project_abort s Hflag). reflexivity.
  - step (check_venv_in_project_pass s Hflag).
    destruct (w_parse_args w argv) as [args | e] eqn:Hparse.
    + step (parse_args_ok w argv args s Hparse).
      destruct (truthy (of_name (name args))) eqn:Hname.
      * step (locate_pipfile_named w args (log s [EParseArgs argv]) Hname).
        rewrite dispatch_forward_environ. by rewrite Hname.
      * step (locate_pipfile_unnamed w args (log s [EParseArgs argv]) Hname).
        destruct (w_exists w (PChild (w_cwd w) "Pipfile")).
        -- rewrite dispatch_forward_environ, Hname.
           destruct (command args); [reflexivity | by rewrite andb_false_r].
        -- destruct (command args); [reflexivity | by rewrite andb_false_r].
    + unfold parse_args, bind. rewrite emit_log, Hparse. reflexivity.
Qed.

Lemma child_events_app (l1 l2 : list event) :
  child_events (l1 ++ l2) = (child_events l1 + child_events l2)%nat.
Proof. unfold child_events. by rewrite List.filter_app, length_app. Qed.

Lemma starts_quiet {A} (m : M A) :
  (forall s, trace (snd (m s)) = trace s) -> starts_at_most 0 m.
Proof. intros H s. exists []. split; [by rewrite H, app_nil_r | reflexivity]. Qed.

Lemma starts_emit (e : event) : is_child e = false -> starts_at_most 0 (emit e).
Proof.
  intros H s. exists [e]. split; [reflexivity |].
  unfold child_events. simpl. by rewrite H.
Qed.

Lemma starts_emit_child (e : event) : starts_at_most 1 (emit e).
Proof.
  intros s. exists [e]. split; [reflexivity |].
  unfold child_events. simpl. destruct (is_child e); simpl; lia.
Qed.

Lemma starts_more {A} (n n' : nat) (m : M A) :
  (n <= n')%nat -> starts_at_most n m -> starts_at_most n' m.
Proof. intros Hle H s. destruct (H s) as (l & Ht & Hl). exists l. split; [done | lia]. Qed.

Lemma starts_bind {A B} (a b : nat) (m : M A) (f : A -> M B) :
  starts_at_most a m -> (forall x, starts_at_most b (f x)) ->
  starts_at_most (a + b) (bind m f).
Proof.
  intros Hm Hf s. unfold bind. destruct (Hm s) as (l1 & Ht1 & Hl1).
  destruct (m s) as [[x | e] s']; simpl in *.
  - destruct (Hf x s') as (l2 & Ht2 & Hl2). exists (l1 ++ l2).
    split; [by rewrite Ht2, Ht1, app_assoc | rewrite child_events_app; lia].
  - exists l1. split; [done | lia].
Qed.

(** Commands that start no child process, down to the primitives. *)
Ltac quiet :=
  repeat first
    [ apply starts_quiet; intros ?; reflexivity
    | apply starts_emit; reflexivity
    | apply (starts_bind 0 0); [| intros ?]
    | match goal with
      | |- starts_at_most 0 (match ?x with _ => _ end) => destruct x
      end ].

Lemma starts_outcome (failure : option exn) : starts_at_most 0 (outcome failure).
Proof. destruct failure; quiet. Qed.

Lemma starts_get_env_dir (w : World) (envname : pyval) :
  starts_at_most 0 (get_env_dir w envname).
Proof. unfold get_env_dir, glob, print, exit, getenv, raise, ret. quiet. Qed.

Lemma starts_get_working_dir (w : World) (envname : pyval) :
  starts_at_most 0 (get_working_dir w envname).
Proof.
  unfold get_working_dir. apply (starts_bind 0 0); [apply starts_get_env_dir |].
  intros v. unfold open_readline, raise, ret. quiet.
Qed.

Lemma starts_interact (w : World) : starts_at_most 0 (interact w sigwinch_passthrough).
Proof.
  intros s. exists (EInteract :: resize_events w). split; [apply interact_trace |].
  unfold child_events, resize_events. simpl.
  induction (w_resizes w) as [|dims l IH]; [reflexivity | exact IH].
Qed.

Lemma starts_shell_branch (w : World) (args : Args) : starts_at_most 1 (shell_branch w args).
Proof.
  unfold shell_branch.
  do 3 (apply (starts_bind 0 1); [quiet | intros _]).
  intros s. destruct (temp_environ_result (shell_session w args) s) as [_ ->].
  revert s. unfold shell_session.
  apply (starts_bind 0 1); [quiet | intros shell].
  apply (starts_bind 1 0); [apply starts_emit_child | intros _].
  apply (starts_bind 0 0); [apply starts_outcome | intros _].
  apply (starts_bind 0 0); [apply starts_get_env_dir | intros env_dir].
  destruct env_dir; try (quiet; fail).
  apply (starts_bind 0 0); [quiet | intros _].
  apply (starts_bind 0 0); [apply starts_outcome | intros _].
  apply (starts_bind 0 0); [quiet | intros _].
  apply (starts_bind 0 0); [apply starts_interact | intros _].
  apply (starts_bind 0 0); [quiet | intros _].
  apply (starts_bind 0 0); [apply starts_outcome | intros _].
  quiet.
Qed.

Lemma starts_subprocess_run (w : World) (cmd : list string) (cwd : option string) :
  starts_at_most 1 (subprocess_run w cmd cwd).
Proof.
  unfold subprocess_run.
  apply (starts_bind 1 0); [apply starts_emit_child | intros _; apply starts_outcome].
Qed.

Lemma starts_forward (w : World) (args : Args) (in_correct_dir : bool)
    (cmd : option (list string)) :
  starts_at_most 1 (forward w args in_correct_dir cmd).
Proof.
  unfold forward. destruct cmd as [cmd|].
  - destruct in_correct_dir; cbn [negb]; cbv iota; [apply starts_subprocess_run |].
    apply (starts_bind 0 1); [apply starts_get_working_dir |].
    intros d. apply starts_subprocess_run.
  - apply (starts_more 0 1); [lia | quiet].
Qed.

Lemma starts_dispatch_forward (w : World) (args : Args) (in_correct_dir : bool) :
  starts_at_most 1 (cmd <- dispatch w args ;; forward w args in_correct_dir cmd).
Proof.
  intros s. destruct (command args) as [|first rest] eqn:Hcmd.
  - exists []. unfold bind, dispatch, shell_condition. rewrite Hcmd.
    split; [by rewrite app_nil_r | unfold child_events; simpl; lia].
  - unfold bind at 1. rewrite (dispatch_cases w args first rest s Hcmd).
    destruct (String.eqb first "shell" && truthy (of_name (name args))).
    + destruct (shell_branch_raises w args s) as [e He].
      rewrite (bind_raise_l _ _ _ e He). cbn [snd]. apply starts_shell_branch.
    + apply starts_forward.
Qed.

(** X9: a run only adds to what has happened, and it starts at most
    one child process: the subshell or the forwarded command, never
    both and never one of them twice. *)
Theorem pipf_one_child (w : World) (argv : list string) (s : State) :
  exists events,
    trace (snd (pipf w argv s)) = trace s ++ events /\
    (child_events events <= 1)%nat.
Proof.
  revert s. change (starts_at_most 1 (pipf w argv)). unfold pipf.
  apply (starts_bind 0 1).
  { unfold check_venv_in_project, print, exit, getenv, raise, ret. quiet. }
  intros _. apply (starts_bind 0 1).
  { unfold parse_args, raise, ret. quiet. }
  intros args. apply (starts_bind 0 1).
  { unfold locate_pipfile, is_pipenv_venv_active, warn, getenv, raise, ret. quiet. }
  intros in_correct_dir. apply starts_dispatch_forward.
Qed.
